(** * datasette/views/special.py: the special views of Datasette

    A shallow embedding of the views of [datasette/views/special.py] that
    bootstrap the root actor, issue signed API tokens and expose the
    permission debugging tools, with the properties of their behaviour.

    Python values are embedded as the inductive type [pyval]; a view is a
    computation in a state and exception monad over the mutable attributes
    of the [Datasette] instance ([self.ds]).  The services of the instance
    that live outside this module ([sign], [setting], the plugin chain,
    the permission checks of the renderer) and the functions of the
    Python runtime ([json.loads], the Unicode tables) are the fields of
    two interfaces, [Runtime] and [App]. *)

From Stdlib Require Import String Ascii List ZArith QArith Lia Bool DecimalString.
Import ListNotations.

Set Warnings "-register-all".

Open Scope string_scope.

(** ** Python values *)

(** A Python [str] is embedded as the string of the bytes of its UTF-8
    encoding: a character below 128 is an ASCII character, any other byte
    is part of a non-ASCII character.  Equality and emptiness of [str]
    values are equality and emptiness of their encodings. *)

Inductive pyval : Type :=
| PNone
| PBool (b : bool)
| PInt (n : Z)
| PFloat (bits : Z)
| PStr (s : string)
| PList (items : list pyval)
| PTuple (items : list pyval)
| PDict (entries : list (string * pyval)).

Definition pydict := list (string * pyval).

Definition is_empty {A : Type} (l : list A) : bool :=
  match l with
  | [] => true
  | _ :: _ => false
  end.

Definition str_truthy (s : string) : bool := negb (s =? "").

(** [bool(v)]: the truth value Python gives to [v].  A float is given by
    the 64 bits of its IEEE 754 encoding; it is false when it is [0.0] or
    [-0.0], that is when the 63 bits below the sign are all zero. *)
Definition truthy (v : pyval) : bool :=
  match v with
  | PNone => false
  | PBool b => b
  | PInt n => negb (n =? 0)%Z
  | PFloat bits => negb (Z.land bits (Z.ones 63) =? 0)%Z
  | PStr s => str_truthy s
  | PList items => negb (is_empty items)
  | PTuple items => negb (is_empty items)
  | PDict entries => negb (is_empty entries)
  end.

(** [d.get(key)] on a dict: the value bound to [key], [None] when there is
    none. *)
Fixpoint dict_get {A : Type} (d : list (string * A)) (key : string) : option A :=
  match d with
  | [] => None
  | (k, v) :: rest => if k =? key then Some v else dict_get rest key
  end.

Definition opt_truthy (o : option pyval) : bool :=
  match o with
  | Some v => truthy v
  | None => false
  end.

Definition opt_str_truthy (o : option string) : bool :=
  match o with
  | Some s => str_truthy s
  | None => false
  end.

(** [x or default] for [x] a [str] or [None]. *)
Definition str_or (o : option string) (default : string) : string :=
  if opt_str_truthy o then
    match o with
    | Some s => s
    | None => default
    end
  else default.

(** [str(b)] for a [bool]. *)
Definition str_of_bool (b : bool) : string := if b then "True" else "False".

Definition is_ascii_char (c : ascii) : bool := (N_of_ascii c <? 128)%N.

Fixpoint isascii (s : string) : bool :=
  match s with
  | EmptyString => true
  | String c rest => is_ascii_char c && isascii rest
  end.

(** [sep.join(parts)] *)
Fixpoint join (sep : string) (parts : list string) : string :=
  match parts with
  | [] => ""
  | [p] => p
  | p :: rest => p ++ sep ++ join sep rest
  end.

Definition newline : string := String (ascii_of_nat 10) EmptyString.
Definition dquote : string := String (ascii_of_nat 34) EmptyString.

(** ** Exceptions and the view monad *)

Inductive exn : Type :=
| Forbidden (message : string)
| KeyError (key : string)
| TypeError (message : string)
| ValueError (message : string)
| JSONDecodeError (message : string)
| AttributeError (message : string)
| UnboundLocalError (name : string)
| RecursionError (message : string).

Inductive outcome (A : Type) : Type :=
| Return (a : A)
| Raise (e : exn).

Arguments Return {A} a.
Arguments Raise {A} e.

(** One record of the log of permission checks. *)
Record PermissionCheck : Type := mkCheck {
  pc_actor : pyval;
  pc_permission : string;
  pc_resource : list string;
  pc_used_default : bool;
  pc_result : pyval
}.

(** The mutable attributes of the [Datasette] instance that the views read
    and write, the clock reading [time.time()] of the request, and the
    list of the calls the views have made to [actor_matches_allow]. *)
Record Datasette : Type := mkDatasette {
  _root_token : option string;
  _permission_checks : list PermissionCheck;
  time_time : Q;
  matcher_calls : list (pyval * pyval)
}.

Definition M (A : Type) : Type := Datasette -> outcome A * Datasette.

Definition ret {A : Type} (a : A) : M A := fun ds => (Return a, ds).

Definition raise {A : Type} (e : exn) : M A := fun ds => (Raise e, ds).

Definition bind {A B : Type} (m : M A) (k : A -> M B) : M B :=
  fun ds =>
    match m ds with
    | (Return a, ds') => k a ds'
    | (Raise e, ds') => (Raise e, ds')
    end.

Definition gets {A : Type} (field : Datasette -> A) : M A :=
  fun ds => (Return (field ds), ds).

Definition modify (f : Datasette -> Datasette) : M unit :=
  fun ds => (Return tt, f ds).

Definition lift {A : Type} (r : exn + A) : M A :=
  match r with
  | inl e => raise e
  | inr a => ret a
  end.

Notation "x <- m ;; k" := (bind m (fun x => k))
  (at level 61, m at next level, right associativity).
Notation "' pat <- m ;; k" :=
  (bind m (fun x => match x with pat => k end))
  (at level 61, pat pattern, m at next level, right associativity).
Notation "m ;;; k" := (bind m (fun _ => k))
  (at level 61, right associativity).

Definition set_root_token (t : option string) (ds : Datasette) : Datasette :=
  mkDatasette t (_permission_checks ds) (time_time ds) (matcher_calls ds).

Definition set_time (t : Q) (ds : Datasette) : Datasette :=
  mkDatasette (_root_token ds) (_permission_checks ds) t (matcher_calls ds).

Definition set_permission_checks (l : list PermissionCheck) (ds : Datasette)
  : Datasette :=
  mkDatasette (_root_token ds) l (time_time ds) (matcher_calls ds).

Definition log_matcher_call (actor allow : pyval) (ds : Datasette) : Datasette :=
  mkDatasette (_root_token ds) (_permission_checks ds) (time_time ds)
    (matcher_calls ds ++ [(actor, allow)])%list.

(** ** Requests and responses *)

(** [request.actor] is a dict or [None]; [request.args] holds the pairs of
    the query string, and [args.get] gives the first value of a name;
    [request.post_vars()] is the dict of the form fields. *)
Record Request : Type := mkRequest {
  actor : option pydict;
  args : list (string * string);
  post_vars : list (string * string)
}.

Definition actor_value (a : option pydict) : pyval :=
  match a with
  | Some d => PDict d
  | None => PNone
  end.

(** A page is what [self.render(templates, request, context)] answers
    with: the templates, the request it is rendered for and the
    context. *)
Inductive Response : Type :=
| Redirect (location : string) (cookies : list (string * string))
| Render (templates : list string) (request : Request)
    (context : list (string * pyval))
| JsonResponse (body : pyval).

Definition set_cookie (r : Response) (key value : string) : Response :=
  match r with
  | Redirect location cookies => Redirect location (cookies ++ [(key, value)])%list
  | other => other
  end.

Definition context_of (r : Response) : list (string * pyval) :=
  match r with
  | Render _ _ context => context
  | _ => []
  end.

(** ** The interfaces of the runtime and of the application *)

(** [secrets.compare_digest(a, b)] on two [str]: a [TypeError] unless both
    are ASCII, otherwise whether they are equal. *)
Definition compare_digest (a b : string) : exn + bool :=
  if isascii a && isascii b then inr (a =? b)
  else inl (TypeError "comparing strings with non-ASCII characters is not supported").

Definition is_digit_char (c : ascii) : bool :=
  (48 <=? N_of_ascii c)%N && (N_of_ascii c <=? 57)%N.

Fixpoint all_digits (s : string) : bool :=
  match s with
  | EmptyString => true
  | String c rest => is_digit_char c && all_digits rest
  end.

(** [s.isdigit()] for an ASCII [s]: not empty and made of [0]..[9]. *)
Definition ascii_isdigit (s : string) : bool := str_truthy s && all_digits s.

(** The number a string of ASCII digits denotes. *)
Fixpoint decimal_value (acc : Z) (s : string) : Z :=
  match s with
  | EmptyString => acc
  | String c rest => decimal_value (10 * acc + (Z.of_N (N_of_ascii c) - 48)) rest
  end.

(** The functions of the Python runtime whose tables and parsers are not
    part of the application. *)
Class Runtime : Type := {
  (** [json.loads(text)]: the value, or the exception it raises: a
      [JSONDecodeError] with its [str(ex)] for a text that is not JSON,
      or another one ([RecursionError] for a text nested too deep,
      [ValueError] for a number with too many digits) *)
  json_loads : string -> exn + pyval;
  (** [json.dumps(value, indent=4)] *)
  json_dumps : pyval -> string;
  (** [s.isdigit()] for a string with non-ASCII characters, from the
      Unicode database *)
  unicode_isdigit : string -> bool;
  (** [int(s)] for a string that is not a plain run of ASCII digits
      (signs, blanks, underscores, digits of other scripts); [None] is a
      [ValueError] *)
  int_other : string -> option Z;
  (** [sys.get_int_max_str_digits()]: the longest run of digits [int]
      converts, 0 for no limit *)
  int_max_str_digits : nat
}.

(** A permission check that is asked for: the arguments of one call of
    [permission_allowed]. *)
Record Query : Type := mkQuery {
  q_actor : pyval;
  q_permission : string;
  q_resource : list string;
  q_default : pyval
}.

(** The methods of [datasette.app.Datasette] and the names of other
    modules of the application that the views use. *)
Class App : Type := {
  (** [self.ds.sign(value, namespace)] *)
  sign : pyval -> string -> string;
  (** [self.ds.setting(name)] *)
  setting : string -> pyval;
  (** [self.ds.urls.instance()] *)
  urls_instance : string;
  (** [datasette.utils.actor_matches_allow(actor, allow)] *)
  actor_matches_allow : pyval -> pyval -> exn + bool;
  (** [datasette.permissions.PERMISSIONS] *)
  PERMISSIONS : pyval;
  (** the answer of the chain of policy sources (plugin hooks, then the
      configured allow rules) to a permission check, [None] when none of
      them answers *)
  policy : pyval -> string -> list string -> option bool;
  (** the instance-wide table of defaults, by permission name *)
  default_table : string -> bool;
  (** the capacity of the log of permission checks *)
  maxlen : nat;
  (** the [default] of [permission_allowed] when the caller gives none *)
  omitted_default : pyval;
  (** the permission checks that are made while a page is rendered, in
      their order: they depend on the templates, on the request (its
      actor) and on the context *)
  render_checks :
    list string -> Request -> list (string * pyval) -> list Query
}.

Section Views.

Context {rt : Runtime} {app : App}.

Definition isdigit (s : string) : bool :=
  if isascii s then ascii_isdigit s else unicode_isdigit s.

Definition exceeds_digit_limit (s : string) : bool :=
  (0 <? int_max_str_digits)%nat && (int_max_str_digits <? String.length s)%nat.

Definition py_int (s : string) : exn + Z :=
  if ascii_isdigit s then
    if exceeds_digit_limit s then
      inl (ValueError "Exceeds the limit for integer string conversion")
    else inr (decimal_value 0 s)
  else
    match int_other s with
    | Some n => inr n
    | None => inl (ValueError "invalid literal for int() with base 10")
    end.

(** [int(x)] for a float [x], here a rational: rounding towards zero. *)
Definition int_of_float (x : Q) : Z := Z.quot (Qnum x) (Zpos (Qden x)).

(** [d[key]] *)
Definition dict_item {A : Type} (d : list (string * A)) (key : string) : exn + A :=
  match dict_get d key with
  | Some v => inr v
  | None => inl (KeyError key)
  end.

(** *** The permission evaluator *)

(** [deque(maxlen=capacity).append(x)]: the oldest entries leave first. *)
Definition ring_append {A : Type} (capacity : nat) (buffer : list A) (x : A)
  : list A :=
  let extended := (buffer ++ [x])%list in
  skipn (List.length extended - capacity) extended.

(** Modelled from the spec: the record of one permission check that
    [Datasette.permission_allowed] (datasette/app.py, not part of this
    module) enters in the log.  The policy sources are consulted; when
    none answers, the result is the default of the caller and
    [used_default] is set. *)
Definition check_record (actor : pyval) (permission : string)
    (resource : list string) (default : pyval) : PermissionCheck :=
  let answer := policy actor permission resource in
  let result :=
    match answer with
    | Some b => PBool b
    | None => default
    end in
  let used_default :=
    match answer with
    | Some _ => false
    | None => true
    end in
  mkCheck actor permission resource used_default result.

(** Modelled from the spec: [Datasette.permission_allowed], defined in
    datasette/app.py.  Every call appends its record to the log of checks
    and returns the result. *)
Definition permission_allowed (actor : pyval) (permission : string)
    (resource : list string) (default : pyval) : M pyval :=
  let record := check_record actor permission resource default in
  modify (fun ds =>
    set_permission_checks
      (ring_append maxlen (_permission_checks ds) record) ds) ;;;
  ret (pc_result record).

(** A result left open ([None]) is settled by the instance-wide table of
    defaults. *)
Definition resolve (permission : string) (result : pyval) : pyval :=
  match result with
  | PNone => PBool (default_table permission)
  | other => other
  end.

(** Modelled from the spec: [Datasette.ensure_permissions], defined in
    datasette/app.py.  Each permission is evaluated with default [None];
    the first one whose result, after the table of defaults, is false
    fails with [Forbidden] (the spec leaves the message open; it is the
    name of the permission here). *)
Fixpoint ensure_permissions (actor : pyval) (permissions : list string) : M unit :=
  match permissions with
  | [] => ret tt
  | permission :: rest =>
      result <- permission_allowed actor permission [] PNone ;;
      if truthy (resolve permission result) then ensure_permissions actor rest
      else raise (Forbidden permission)
  end.

(** The checks of a list, made one after the other; their answers are
    for the templates. *)
Fixpoint run_checks (queries : list Query) : M unit :=
  match queries with
  | [] => ret tt
  | q :: rest =>
      permission_allowed (q_actor q) (q_permission q) (q_resource q)
        (q_default q) ;;;
      run_checks rest
  end.

(** Modelled from the spec: [BaseView.render], defined in
    datasette/views/base.py, which is not part of this module.  Rendering
    is a collaborator of the views that calls back into the permission
    evaluator (the source says so where it copies the log of checks
    before it renders it): the checks it makes are logged like any
    other, and the answer is the page. *)
Definition render (templates : list string) (request : Request)
    (context : list (string * pyval)) : M Response :=
  run_checks (render_checks templates request context) ;;;
  ret (Render templates request context).

(** *** AuthTokenView *)

Definition root_cookie_payload : pyval :=
  PDict [("a", PDict [("id", PStr "root")])].

(** [request.args.get("token") or ""] *)
Definition presented_token (request : Request) : string :=
  str_or (dict_get (args request) "token") "".

Definition AuthTokenView_get (request : Request) : M Response :=
  let token := presented_token request in
  root <- gets _root_token ;;
  match root with
  | None => raise (Forbidden "Root token has already been used")
  | Some secret =>
      if negb (str_truthy secret) then
        raise (Forbidden "Root token has already been used")
      else
        same <- lift (compare_digest token secret) ;;
        if same then
          modify (set_root_token None) ;;;
          let response := Redirect urls_instance [] in
          ret (set_cookie response "ds_actor" (sign root_cookie_payload "actor"))
        else
          raise (Forbidden "Invalid token")
  end.

(** *** PermissionsDebugView *)

Definition check_value (c : PermissionCheck) : pyval :=
  PDict [("actor", pc_actor c);
         ("permission", PStr (pc_permission c));
         ("resource", PTuple (map PStr (pc_resource c)));
         ("used_default", PBool (pc_used_default c));
         ("result", pc_result c)].

Definition PermissionsDebugView_get (request : Request) : M Response :=
  ensure_permissions (actor_value (actor request)) ["view-instance"] ;;;
  allowed <- permission_allowed (actor_value (actor request))
               "permissions-debug" [] omitted_default ;;
  if negb (truthy allowed) then raise (Forbidden "Permission denied")
  else
    checks <- gets _permission_checks ;;
    render ["permissions_debug.html"] request
      [("permission_checks", PList (map check_value (rev checks)));
       ("permissions", PERMISSIONS)].

(** The list [resource] of [post]: each segment is appended when it is
    not empty. *)
Definition build_resource (resource_1 resource_2 : string) : list string :=
  let resource := [] in
  let resource := if str_truthy resource_1 then (resource ++ [resource_1])%list else resource in
  let resource := if str_truthy resource_2 then (resource ++ [resource_2])%list else resource in
  resource.

Definition PermissionsDebugView_post (request : Request) : M Response :=
  ensure_permissions (actor_value (actor request)) ["view-instance"] ;;;
  allowed <- permission_allowed (actor_value (actor request))
               "permissions-debug" [] omitted_default ;;
  if negb (truthy allowed) then raise (Forbidden "Permission denied")
  else
    let vars := post_vars request in
    actor_text <- lift (dict_item vars "actor") ;;
    actor <- lift (json_loads actor_text) ;;
    permission <- lift (dict_item vars "permission") ;;
    resource_1 <- lift (dict_item vars "resource_1") ;;
    resource_2 <- lift (dict_item vars "resource_2") ;;
    let resource := build_resource resource_1 resource_2 in
    result <- permission_allowed actor permission resource (PStr "USE_DEFAULT") ;;
    ret (JsonResponse
           (PDict [("actor", actor);
                   ("permission", PStr permission);
                   ("resource", PTuple (map PStr resource));
                   ("result", result)])).

(** *** AllowDebugView *)

Definition default_actor_input : string :=
  "{" ++ dquote ++ "id" ++ dquote ++ ": " ++ dquote ++ "root" ++ dquote ++ "}".

Definition default_allow_input : string :=
  "{" ++ dquote ++ "id" ++ dquote ++ ": " ++ dquote ++ "*" ++ dquote ++ "}".

(** A call of [actor_matches_allow], entered in the list of calls. *)
Definition call_matcher (actor allow : pyval) : M bool :=
  modify (log_matcher_call actor allow) ;;;
  lift (actor_matches_allow actor allow).

(** A local variable that is read: unbound, it raises. *)
Definition local {A : Type} (name : string) (v : option A) : M A :=
  match v with
  | Some a => ret a
  | None => raise (UnboundLocalError name)
  end.

(** One [try: x = json.loads(text); text = json.dumps(x, indent=4)
    except JSONDecodeError as ex: errors.append(...)] block: the variable
    [x] (bound or not), the text, and the list of errors after it.  Only
    a [JSONDecodeError] is caught; another exception of [json.loads]
    leaves the view. *)
Definition parse_input (label text : string) (errors : list string)
  : exn + (option pyval * string * list string) :=
  match json_loads text with
  | inr value => inr (Some value, json_dumps value, errors)
  | inl (JSONDecodeError ex) =>
      inr (None, text, (errors ++ [(label ++ " JSON error: " ++ ex)%string])%list)
  | inl e => inl e
  end.

Definition AllowDebugView_get (request : Request) : M Response :=
  let errors := [] in
  let actor_input := str_or (dict_get (args request) "actor") default_actor_input in
  '(actor, actor_input, errors) <- lift (parse_input "Actor" actor_input errors) ;;
  let allow_input := str_or (dict_get (args request) "allow") default_allow_input in
  '(allow, allow_input, errors) <- lift (parse_input "Allow" allow_input errors) ;;
  result <-
    (if is_empty errors then
       a <- local "actor" actor ;;
       r <- local "allow" allow ;;
       b <- call_matcher a r ;;
       ret (PStr (str_of_bool b))
     else ret PNone) ;;
  render ["allow_debug.html"] request
    [("result", result);
     ("error", PStr (if is_empty errors then ""
                     else join (newline ++ newline) errors));
     ("actor_input", PStr actor_input);
     ("allow_input", PStr allow_input)].

(** *** CreateTokenView *)

Definition check_permission (request : Request) : M unit :=
  if negb (truthy (setting "allow_signed_tokens")) then
    raise (Forbidden "Signed tokens are not enabled for this Datasette instance")
  else if negb (truthy (actor_value (actor request))) then
    raise (Forbidden "You must be logged in to create a token")
  else
    match actor request with
    | None => raise (AttributeError "'NoneType' object has no attribute 'get'")
    | Some a =>
        if negb (opt_truthy (dict_get a "id")) then
          raise (Forbidden
                   "You must be logged in as an actor with an ID to create a token")
        else if opt_truthy (dict_get a "token") then
          raise (Forbidden
                   "Token authentication cannot be used to create additional tokens")
        else ret tt
    end.

Definition CreateTokenView_get (request : Request) : M Response :=
  check_permission request ;;;
  render ["create_token.html"] request [("actor", actor_value (actor request))].

(** The condition [not duration_string or not duration_string.isdigit()
    or not int(duration_string) > 0], evaluated from left to right. *)
Definition invalid_duration (duration_string : option string) : exn + bool :=
  match duration_string with
  | None => inr true
  | Some s =>
      if negb (str_truthy s) then inr true
      else if negb (isdigit s) then inr true
      else
        match py_int s with
        | inl e => inl e
        | inr n => inr (negb (n >? 0)%Z)
        end
  end.

Definition int_of (duration_string : option string) : exn + Z :=
  match duration_string with
  | Some s => py_int s
  | None => inl (TypeError "int() argument must be a string, a bytes-like object or a real number, not 'NoneType'")
  end.

(** The [if post.get("expire_type"):] block of [post]: the list [errors]
    and the variable [duration] after it. *)
Definition parse_expiry (post : list (string * string))
  : M (list string * option Z) :=
  let errors := [] in
  let duration := None in
  if opt_str_truthy (dict_get post "expire_type") then
    let duration_string := dict_get post "expire_duration" in
    invalid <- lift (invalid_duration duration_string) ;;
    if invalid then ret ((errors ++ ["Invalid expire duration"])%list, duration)
    else
      unit <- lift (dict_item post "expire_type") ;;
      if unit =? "minutes" then
        n <- lift (int_of duration_string) ;;
        ret (errors, Some (n * 60)%Z)
      else if unit =? "hours" then
        n <- lift (int_of duration_string) ;;
        ret (errors, Some (n * 60 * 60)%Z)
      else if unit =? "days" then
        n <- lift (int_of duration_string) ;;
        ret (errors, Some (n * 60 * 60 * 24)%Z)
      else ret ((errors ++ ["Invalid expire duration unit"])%list, duration)
  else ret (errors, duration).

(** [request.actor["id"]] *)
Definition actor_item (a : option pydict) (key : string) : exn + pyval :=
  match a with
  | Some d => dict_item d key
  | None => inl (TypeError "'NoneType' object is not subscriptable")
  end.

Definition CreateTokenView_post (request : Request) : M Response :=
  check_permission request ;;;
  let post := post_vars request in
  '(errors, duration) <- parse_expiry post ;;
  '(token, token_bits) <-
    (if is_empty errors then
       id <- lift (actor_item (actor request) "id") ;;
       now <- gets time_time ;;
       let token_bits := [("a", id); ("t", PInt (int_of_float now))] in
       let token_bits :=
         match duration with
         | Some d => if truthy (PInt d) then (token_bits ++ [("d", PInt d)])%list
                     else token_bits
         | None => token_bits
         end in
       let token := "dstok_" ++ sign (PDict token_bits) "token" in
       ret (PStr token, PDict token_bits)
     else ret (PNone, PNone)) ;;
  render ["create_token.html"] request
    [("actor", actor_value (actor request));
     ("errors", PList (map PStr errors));
     ("token", token);
     ("token_bits", token_bits)].

(** *** The views as one server *)

Inductive Call : Type :=
| GET_auth_token (request : Request)
| GET_permissions_debug (request : Request)
| POST_permissions_debug (request : Request)
| GET_allow_debug (request : Request)
| GET_create_token (request : Request)
| POST_create_token (request : Request).

Definition handle (c : Call) : M Response :=
  match c with
  | GET_auth_token request => AuthTokenView_get request
  | GET_permissions_debug request => PermissionsDebugView_get request
  | POST_permissions_debug request => PermissionsDebugView_post request
  | GET_allow_debug request => AllowDebugView_get request
  | GET_create_token request => CreateTokenView_get request
  | POST_create_token request => CreateTokenView_post request
  end.

(** The calls are served one after the other, each at its clock reading;
    the instance is shared. *)
Fixpoint serve (calls : list (Q * Call)) (ds : Datasette)
  : list (Call * outcome Response) * Datasette :=
  match calls with
  | [] => ([], ds)
  | (now, c) :: rest =>
      let (o, ds1) := handle c (set_time now ds) in
      let (served, ds2) := serve rest ds1 in
      ((c, o) :: served, ds2)
  end.

End Views.

Arguments render : simpl never.

(** ** The other views of the module *)

(** The views below also queue messages for the user, call the data
    callback they were built with, clear a cookie or answer with a body
    of their own.  Their computations run over the instance together
    with the list of the calls made to [self.ds.add_message] and the
    list of the calls made to the data callbacks; a failed [assert] is
    an exception of its own. *)

Inductive error : Type :=
| PyExn (e : exn)
| AssertionError.

Inductive result (A : Type) : Type :=
| Done (a : A)
| Failed (e : error).

Arguments Done {A} a.
Arguments Failed {A} e.

Record Site : Type := mkSite {
  instance : Datasette;
  added_messages : list (string * pyval);
  callback_calls : list (option Request)
}.

Definition V (A : Type) : Type := Site -> result A * Site.

Definition vret {A : Type} (a : A) : V A := fun s => (Done a, s).

Definition vfail {A : Type} (e : error) : V A := fun s => (Failed e, s).

Definition vbind {A B : Type} (m : V A) (k : A -> V B) : V B :=
  fun s =>
    match m s with
    | (Done a, s') => k a s'
    | (Failed e, s') => (Failed e, s')
    end.

Notation "x <-- m ;; k" := (vbind m (fun x => k))
  (at level 61, m at next level, right associativity).
Notation "m ;;- k" := (vbind m (fun _ => k))
  (at level 61, right associativity).

Definition set_instance (ds : Datasette) (s : Site) : Site :=
  mkSite ds (added_messages s) (callback_calls s).

(** A computation of the views above, run on the instance of the site. *)
Definition run {A : Type} (m : M A) : V A :=
  fun s =>
    match m (instance s) with
    | (Return a, ds) => (Done a, set_instance ds s)
    | (Raise e, ds) => (Failed (PyExn e), set_instance ds s)
    end.

Definition vlift {A : Type} (r : exn + A) : V A :=
  match r with
  | inl e => vfail (PyExn e)
  | inr a => vret a
  end.

(** [self.ds.add_message(request, message, type)], entered in the list
    of its calls. *)
Definition add_message (message : string) (type : pyval) : V unit :=
  fun s =>
    (Done tt,
     mkSite (instance s) (added_messages s ++ [(message, type)])%list
       (callback_calls s)).

(** A cookie with the attributes the views set. *)
Record Cookie : Type := mkCookie {
  cookie_key : string;
  cookie_value : string;
  cookie_expires : option Z;
  cookie_max_age : option Z
}.

Inductive Reply : Type :=
| Plain (r : Response)
| RedirectCookies (location : string) (cookies : list Cookie)
| Raw (body : string) (content_type : string) (headers : list (string * string)).

(** [response.set_cookie(key, value, expires=..., max_age=...)] *)
Definition set_cookie_with (r : Reply) (c : Cookie) : Reply :=
  match r with
  | RedirectCookies location cookies =>
      RedirectCookies location (cookies ++ [c])%list
  | other => other
  end.

(** A [JsonDataView] as [__init__] builds it; the callback is called
    with the request or with nothing. *)
Record JsonDataView : Type := mkJsonDataView {
  filename : string;
  data_callback : option Request -> exn + pyval;
  needs_request : bool
}.

(** What the views take from the rest of the application and from the
    runtime besides [App] and [Runtime]. *)
Class Presentation : Type := {
  (** [Datasette.INFO], [Datasette.WARNING], [Datasette.ERROR] *)
  INFO : pyval;
  WARNING : pyval;
  ERROR : pyval;
  (** [self.ds.cors] *)
  cors : bool;
  (** [datasette.utils.add_cors_headers(headers)]: the dict after the
      call *)
  add_cors_headers : list (string * string) -> list (string * string);
  (** [json.dumps(value)] *)
  json_dumps_compact : pyval -> string
}.

(** A view of the first kind, served on a site. *)
Definition page (m : M Response) : V Reply :=
  r <-- run m ;; vret (Plain r).

Section OtherViews.

Context {rt : Runtime} {app : App} {pres : Presentation}.

(** *** JsonDataView *)

(** [self.data_callback(request)] or [self.data_callback()], entered in
    the list of the calls. *)
Definition call_data_callback (self : JsonDataView) (argument : option Request)
  : V pyval :=
  fun s =>
    let s' := mkSite (instance s) (added_messages s)
                (callback_calls s ++ [argument])%list in
    match data_callback self argument with
    | inl e => (Failed (PyExn e), s')
    | inr data => (Done data, s')
    end.

(** [request.url_vars] holds, for each named group of the route, the
    text it matched or [None]. *)
Definition JsonDataView_get (self : JsonDataView)
    (url_vars : list (string * option string)) (request : Request) : V Reply :=
  as_format <-- vlift (dict_item url_vars "format") ;;
  run (ensure_permissions (actor_value (actor request)) ["view-instance"]) ;;-
  data <-- (if needs_request self then call_data_callback self (Some request)
            else call_data_callback self None) ;;
  if opt_str_truthy as_format then
    let headers := [] in
    let headers := if cors then add_cors_headers headers else headers in
    vret (Raw (json_dumps_compact data) "application/json; charset=utf-8" headers)
  else
    page (render ["show_json.html"] request
            [("filename", PStr (filename self));
             ("data_json", PStr (json_dumps data))]).

(** *** PatternPortfolioView *)

Definition PatternPortfolioView_get (request : Request) : M Response :=
  ensure_permissions (actor_value (actor request)) ["view-instance"] ;;;
  render ["patterns.html"] request [].

(** *** LogoutView *)

Definition LogoutView_get (request : Request) : M Response :=
  if negb (truthy (actor_value (actor request))) then
    ret (Redirect urls_instance [])
  else
    render ["logout.html"] request [("actor", actor_value (actor request))].

Definition LogoutView_post (request : Request) : V Reply :=
  let response := RedirectCookies urls_instance [] in
  let response :=
    set_cookie_with response (mkCookie "ds_actor" "" (Some 0%Z) (Some 0%Z)) in
  add_message "You are now logged out" WARNING ;;-
  vret response.

(** *** MessagesDebugView *)

Definition MessagesDebugView_get (request : Request) : M Response :=
  ensure_permissions (actor_value (actor request)) ["view-instance"] ;;;
  render ["messages_debug.html"] request [].

(** [getattr(datasette, name)] for the names of the three levels, the
    only ones the view asks for. *)
Definition getattr_level (name : string) : exn + pyval :=
  if name =? "INFO" then inr INFO
  else if name =? "WARNING" then inr WARNING
  else if name =? "ERROR" then inr ERROR
  else inl (AttributeError "'Datasette' object has no such attribute").

(** [post] of the view; [assert] is checked, as the interpreter does
    unless it is told to optimize. *)
Definition MessagesDebugView_post (request : Request) : V Reply :=
  run (ensure_permissions (actor_value (actor request)) ["view-instance"]) ;;-
  let post := post_vars request in
  let message :=
    match dict_get post "message" with
    | Some m => m
    | None => ""
    end in
  let message_type := str_or (dict_get post "message_type") "INFO" in
  if negb (existsb (String.eqb message_type) ["INFO"; "WARNING"; "ERROR"; "all"])
  then vfail AssertionError
  else
    (if message_type =? "all" then
       add_message message INFO ;;-
       add_message message WARNING ;;-
       add_message message ERROR
     else
       level <-- vlift (getattr_level message_type) ;;
       add_message message level) ;;-
    vret (Plain (Redirect urls_instance [])).

(** *** ApiExplorerView *)

Definition ApiExplorerView_get (request : Request) : M Response :=
  render ["api_explorer.html"] request [].

(** *** All the views as one server *)

Inductive Route : Type :=
| json_data (self : JsonDataView) (url_vars : list (string * option string))
| patterns
| auth_token
| logout_get
| logout_post
| permissions_debug_get
| permissions_debug_post
| allow_debug
| messages_debug_get
| messages_debug_post
| create_token_get
| create_token_post
| api_explorer.

Definition dispatch (route : Route) (request : Request) : V Reply :=
  match route with
  | json_data self url_vars => JsonDataView_get self url_vars request
  | patterns => page (PatternPortfolioView_get request)
  | auth_token => page (AuthTokenView_get request)
  | logout_get => page (LogoutView_get request)
  | logout_post => LogoutView_post request
  | permissions_debug_get => page (PermissionsDebugView_get request)
  | permissions_debug_post => page (PermissionsDebugView_post request)
  | allow_debug => page (AllowDebugView_get request)
  | messages_debug_get => page (MessagesDebugView_get request)
  | messages_debug_post => MessagesDebugView_post request
  | create_token_get => page (CreateTokenView_get request)
  | create_token_post => page (CreateTokenView_post request)
  | api_explorer => page (ApiExplorerView_get request)
  end.

Definition at_time (now : Q) (s : Site) : Site :=
  set_instance (set_time now (instance s)) s.

(** The requests are served one after the other, each at its clock
    reading, on the same site. *)
Fixpoint serve_all (calls : list (Q * Route * Request)) (s : Site)
  : list (Route * Request * result Reply) * Site :=
  match calls with
  | [] => ([], s)
  | (now, route, request) :: rest =>
      let (o, s1) := dispatch route request (at_time now s) in
      let (served, s2) := serve_all rest s1 in
      ((route, request, o) :: served, s2)
  end.

End OtherViews.


(** ** A sample instance *)

(** A stand-in for the serializers: a compact rendering of a value. *)
Fixpoint encode (v : pyval) : string :=
  match v with
  | PNone => "null"
  | PBool b => if b then "true" else "false"
  | PInt n => NilZero.string_of_int (Z.to_int n)
  | PFloat bits => "f" ++ NilZero.string_of_int (Z.to_int bits)
  | PStr s => dquote ++ s ++ dquote
  | PList items => "[" ++ join "," (map encode items) ++ "]"
  | PTuple items => "[" ++ join "," (map encode items) ++ "]"
  | PDict entries =>
      "{" ++ join "," (map (fun kv => dquote ++ fst kv ++ dquote ++ ":" ++ encode (snd kv))
                         entries) ++ "}"
  end.

Definition superscript_two : string :=
  String (ascii_of_nat 194) (String (ascii_of_nat 178) EmptyString).

(** The second byte of the superscripts two, three and one (U+00B2,
    U+00B3, U+00B9), after the byte 194. *)
Definition is_superscript_byte (c : ascii) : bool :=
  let n := N_of_ascii c in
  ((n =? 178) || (n =? 179) || (n =? 185))%N.

(** [isdigit] on the strings made of ASCII digits and of the three
    superscript digits of Latin-1. *)
Fixpoint latin1_digits (s : string) : bool :=
  match s with
  | EmptyString => true
  | String c rest =>
      if is_digit_char c then latin1_digits rest
      else
        match rest with
        | String c2 rest2 =>
            (N_of_ascii c =? 194)%N && is_superscript_byte c2 && latin1_digits rest2
        | EmptyString => false
        end
  end.

(** [int] on an ASCII literal with a sign. *)
Definition signed_literal (s : string) : option Z :=
  match s with
  | String "+"%char rest =>
      if ascii_isdigit rest then Some (decimal_value 0 rest) else None
  | String "-"%char rest =>
      if ascii_isdigit rest then Some (- decimal_value 0 rest)%Z else None
  | _ => None
  end.

(** The text of a JSON object with one key and a string under it. *)
Definition object_text (key value : string) : string :=
  "{" ++ dquote ++ key ++ dquote ++ ": " ++ dquote ++ value ++ dquote ++ "}".

(** A hundred thousand opening brackets: a text nested too deep for
    [json.loads]. *)
Definition deep_text : string := N.iter 100000 (String "["%char) EmptyString.

(** A runtime that knows the JSON texts and the non-ASCII strings of the
    examples: the objects [{"id": "root"}] and [{"id": "*"}], the empty
    object, [null], the numbers written with ASCII digits (up to the
    limit on the digits of [int], the default of the interpreter), the
    text nested too deep, and the superscript digits, digits for
    [isdigit] that [int] rejects. *)
Definition sample_runtime : Runtime := {|
  json_loads text :=
    if text =? object_text "id" "root" then inr (PDict [("id", PStr "root")])
    else if text =? object_text "id" "*" then inr (PDict [("id", PStr "*")])
    else if text =? "{}" then inr (PDict [])
    else if text =? "null" then inr PNone
    else if ascii_isdigit text then
      if (4300 <? String.length text)%nat then
        inl (ValueError "Exceeds the limit (4300 digits) for integer string conversion")
      else inr (PInt (decimal_value 0 text))
    else if text =? deep_text then
      inl (RecursionError "maximum recursion depth exceeded while decoding a JSON array from a unicode string")
    else inl (JSONDecodeError "Expecting value: line 1 column 1 (char 0)");
  json_dumps := encode;
  unicode_isdigit s := str_truthy s && latin1_digits s;
  int_other := signed_literal;
  int_max_str_digits := 4300
|}.

(** A stand-in for the matcher: the actor has one of the keys of the
    rule. *)
Definition sample_matcher (actor allow : pyval) : exn + bool :=
  match allow with
  | PBool b => inr b
  | PDict rule =>
      match actor with
      | PDict a =>
          inr (existsb (fun kv => match dict_get a (fst kv) with
                                  | Some _ => true
                                  | None => false
                                  end) rule)
      | _ => inr false
      end
  | _ => inl (AttributeError "object has no attribute 'items'")
  end.

(** A stand-in for the checks of the renderer: the menu of a page asks
    twice whether the actor of the request may see the debug menu. *)
Definition menu_checks (templates : list string) (request : Request)
    (context : list (string * pyval)) : list Query :=
  [mkQuery (actor_value (actor request)) "debug-menu" [] (PBool false);
   mkQuery (actor_value (actor request)) "debug-menu" [] (PBool false)].

(** An instance with signed tokens enabled, where the policy sources grant
    everything to the actor [root] and leave the rest to the defaults. *)
Definition sample_app : App := {|
  sign value namespace := namespace ++ ":" ++ encode value;
  setting name := if name =? "allow_signed_tokens" then PBool true else PNone;
  urls_instance := "/";
  actor_matches_allow := sample_matcher;
  PERMISSIONS := PTuple [];
  policy actor permission resource :=
    match actor with
    | PDict a =>
        match dict_get a "id" with
        | Some (PStr "root") => Some true
        | _ => None
        end
    | _ => None
    end;
  default_table permission := permission =? "view-instance";
  maxlen := 200;
  omitted_default := PBool false;
  render_checks := menu_checks
|}.

Definition sample_secret : string :=
  "9f86d081884c7d659a2feaa0c55ad015a3bf4f1b2b0b822cd15d6c15b0f00a08".

Definition sample_ds : Datasette := {|
  _root_token := Some sample_secret;
  _permission_checks := [];
  time_time := 1700000000.5%Q;
  matcher_calls := []
|}.

Definition root_actor : option pydict := Some [("id", PStr "root")].

Definition sample_request : Request := {|
  actor := root_actor;
  args := [("token", sample_secret)];
  post_vars := []
|}.

Definition wrong_request : Request := {|
  actor := None;
  args := [("token", "0000")];
  post_vars := []
|}.

Definition consumed_ds : Datasette := set_root_token None sample_ds.

Definition anonymous_request : Request := {|
  actor := None;
  args := [];
  post_vars := []
|}.

(** A request authenticated with an API token. *)
Definition token_actor_request : Request := {|
  actor := Some [("id", PStr "alice"); ("token", PStr "dstok")];
  args := [];
  post_vars := []
|}.

Definition expiry_request (unit count : string) : Request := {|
  actor := Some [("id", PStr "alice")];
  args := [];
  post_vars := [("expire_type", unit); ("expire_duration", count)]
|}.

Definition two_hours_payload : pyval :=
  PDict [("a", PStr "alice"); ("t", PInt 1700000000); ("d", PInt 7200)].

(** The page that answers a request for a token of two hours. *)
Definition two_hours_page : Response :=
  Render ["create_token.html"] (expiry_request "hours" "2")
    [("actor", PDict [("id", PStr "alice")]);
     ("errors", PList []);
     ("token", PStr ("dstok_" ++ sign (App := sample_app) two_hours_payload "token"));
     ("token_bits", two_hours_payload)].

Definition resource_request : Request := {|
  actor := root_actor;
  args := [];
  post_vars := [("actor", "{}"); ("permission", "view-table");
                ("resource_1", ""); ("resource_2", "events")]
|}.

(** The levels of the messages, numbered in their order; an instance
    started with CORS, and a stand-in for the headers it adds. *)
Definition sample_presentation : Presentation := {|
  INFO := PInt 1;
  WARNING := PInt 2;
  ERROR := PInt 3;
  cors := true;
  add_cors_headers headers :=
    (headers ++ [("Access-Control-Allow-Origin", "*")])%list;
  json_dumps_compact := encode
|}.

Definition sample_site : Site := {|
  instance := sample_ds;
  added_messages := [];
  callback_calls := []
|}.

(** The view of [/-/actor.json]: its callback shows the actor of the
    request. *)
Definition actor_json : JsonDataView := {|
  filename := "actor.json";
  data_callback argument :=
    match argument with
    | Some request => inr (PDict [("actor", actor_value (actor request))])
    | None => inl (TypeError "missing 1 required positional argument: 'request'")
    end;
  needs_request := true
|}.

Definition non_ascii_request : Request := {|
  actor := None;
  args := [("token", superscript_two)];
  post_vars := []
|}.

Definition bad_json_request : Request := {|
  actor := root_actor;
  args := [];
  post_vars := [("actor", "{"); ("permission", "view-table");
                ("resource_1", ""); ("resource_2", "events")]
|}.

Definition missing_field_request : Request := {|
  actor := root_actor;
  args := [];
  post_vars := [("actor", "{}"); ("permission", "view-table")]
|}.

Definition all_messages_request : Request := {|
  actor := root_actor;
  args := [];
  post_vars := [("message", "hello"); ("message_type", "all")]
|}.

(** The sample instance with every default off: only [root] is let in. *)
Definition closed_app : App := {|
  sign := sign (App := sample_app);
  setting := setting (App := sample_app);
  urls_instance := "/";
  actor_matches_allow := sample_matcher;
  PERMISSIONS := PTuple [];
  policy := policy (App := sample_app);
  default_table permission := false;
  maxlen := 200;
  omitted_default := PBool false;
  render_checks := menu_checks
|}.



(** A view that renders last, if it renders: on every instance it
    leaves the part [f] as it was, or it is the rendering of a page for
    the request on an instance with this part as it was. *)
Definition renders_last {app : App} {B : Type} (f : Datasette -> B)
    (request : Request) (m : M Response) : Prop :=
  forall ds,
    f (snd (m ds)) = f ds \/
    exists templates context ds1,
      f ds1 = f ds /\ m ds = render templates request context ds1.

(** A computation that leaves a part [f] of the instance as it was. *)
Definition keeps {A B : Type} (f : Datasette -> B) (m : M A) : Prop :=
  forall ds, f (snd (m ds)) = f ds.

(** The same for the computations over a site. *)
Definition vkeeps {A B : Type} (f : Site -> B) (m : V A) : Prop :=
  forall s, f (snd (m s)) = f s.

(** * Properties *)

(** ** What a view leaves alone *)

(** A computation that never writes the root token. *)
Definition keeps_root_token {A : Type} (m : M A) : Prop :=
  forall ds, _root_token (snd (m ds)) = _root_token ds.

Lemma keeps_ret {A : Type} (a : A) : keeps_root_token (ret a).
Proof. intro ds. reflexivity. Qed.

Lemma keeps_raise {A : Type} (e : exn) : keeps_root_token (@raise A e).
Proof. intro ds. reflexivity. Qed.

Lemma keeps_gets {A : Type} (f : Datasette -> A) : keeps_root_token (gets f).
Proof. intro ds. reflexivity. Qed.

Lemma keeps_lift {A : Type} (r : exn + A) : keeps_root_token (lift r).
Proof. destruct r; intro ds; reflexivity. Qed.

Lemma keeps_modify (f : Datasette -> Datasette) :
  (forall ds, _root_token (f ds) = _root_token ds) ->
  keeps_root_token (modify f).
Proof. intros Hf ds. apply Hf. Qed.

Lemma keeps_bind {A B : Type} (m : M A) (k : A -> M B) :
  keeps_root_token m ->
  (forall a, keeps_root_token (k a)) ->
  keeps_root_token (bind m k).
Proof.
  intros Hm Hk ds. unfold bind.
  specialize (Hm ds).
  destruct (m ds) as [[a | e] ds1]; simpl in *.
  - rewrite Hk. exact Hm.
  - exact Hm.
Qed.

Create HintDb frame.

#[local] Hint Resolve keeps_ret keeps_raise keeps_gets keeps_lift : frame.

Ltac frame_step :=
  match goal with
  | |- keeps_root_token (bind _ _) => apply keeps_bind; [ | intros ? ]
  | |- keeps_root_token (modify _) => apply keeps_modify; intros ?; reflexivity
  | |- keeps_root_token (if ?b then _ else _) => destruct b
  | |- keeps_root_token (match ?x with _ => _ end) => destruct x
  | |- keeps_root_token _ => solve [ auto with frame ]
  end.

Lemma keeps_permission_allowed {app : App} actor permission resource default :
  keeps_root_token (permission_allowed actor permission resource default).
Proof. unfold permission_allowed. repeat frame_step. Qed.

Lemma keeps_ensure_permissions {app : App} actor permissions :
  keeps_root_token (ensure_permissions actor permissions).
Proof.
  induction permissions as [ | p rest IH]; simpl.
  - auto with frame.
  - apply keeps_bind; [ apply keeps_permission_allowed | intros result ].
    destruct (truthy _); [ exact IH | auto with frame ].
Qed.

Lemma keeps_run_checks {app : App} queries :
  keeps_root_token (run_checks queries).
Proof.
  induction queries as [ | q rest IH]; simpl.
  - auto with frame.
  - apply keeps_bind; [ apply keeps_permission_allowed | intros _; exact IH ].
Qed.

Lemma keeps_render {app : App} templates request context :
  keeps_root_token (render templates request context).
Proof.
  unfold render. apply keeps_bind; [ apply keeps_run_checks | intros _ ].
  auto with frame.
Qed.

#[local] Hint Resolve keeps_permission_allowed keeps_ensure_permissions
  keeps_run_checks keeps_render : frame.

(** The checks of the renderer never fail. *)
Lemma run_checks_returns {app : App} queries ds :
  fst (run_checks queries ds) = Return tt.
Proof.
  revert ds. induction queries as [ | q rest IH]; intros ds; simpl.
  - reflexivity.
  - unfold bind, permission_allowed, modify, ret. simpl. apply IH.
Qed.

(** Rendering answers with the page, on the instance its checks leave. *)
Lemma render_run {app : App} templates request context ds :
  render templates request context ds =
    (Return (Render templates request context),
     snd (run_checks (render_checks templates request context) ds)).
Proof.
  unfold render, bind.
  pose proof (run_checks_returns (render_checks templates request context) ds) as H.
  destruct (run_checks (render_checks templates request context) ds) as [o ds1].
  simpl in *. subst o. reflexivity.
Qed.

Lemma keeps_check_permission {app : App} request :
  keeps_root_token (check_permission request).
Proof. unfold check_permission. repeat frame_step. Qed.

#[local] Hint Resolve keeps_check_permission : frame.

Lemma keeps_PermissionsDebugView_get {app : App} request :
  keeps_root_token (PermissionsDebugView_get request).
Proof. unfold PermissionsDebugView_get. repeat frame_step. Qed.

Lemma keeps_PermissionsDebugView_post {rt : Runtime} {app : App} request :
  keeps_root_token (PermissionsDebugView_post request).
Proof. unfold PermissionsDebugView_post. repeat frame_step. Qed.

Lemma keeps_AllowDebugView_get {rt : Runtime} {app : App} request :
  keeps_root_token (AllowDebugView_get request).
Proof.
  unfold AllowDebugView_get, call_matcher, local. repeat frame_step.
Qed.

Lemma keeps_CreateTokenView_get {app : App} request :
  keeps_root_token (CreateTokenView_get request).
Proof. unfold CreateTokenView_get. repeat frame_step. Qed.

Lemma keeps_CreateTokenView_post {rt : Runtime} {app : App} request :
  keeps_root_token (CreateTokenView_post request).
Proof.
  unfold CreateTokenView_post, parse_expiry. repeat frame_step.
Qed.

(** ** AuthTokenView *)

(** Once the root token is [None], the view fails and leaves the instance
    as it is. *)
Lemma AuthTokenView_get_consumed {app : App} (request : Request) (ds : Datasette) :
  _root_token ds = None ->
  AuthTokenView_get request ds =
    (Raise (Forbidden "Root token has already been used"), ds).
Proof.
  intros H. unfold AuthTokenView_get, bind, gets. rewrite H. reflexivity.
Qed.

(** No view brings a consumed root token back. *)
Lemma handle_keeps_consumed {rt : Runtime} {app : App} (c : Call) (ds : Datasette) :
  _root_token ds = None -> _root_token (snd (handle c ds)) = None.
Proof.
  intros H. destruct c as [r | r | r | r | r | r]; simpl.
  - rewrite (AuthTokenView_get_consumed r ds H). exact H.
  - rewrite keeps_PermissionsDebugView_get. exact H.
  - rewrite keeps_PermissionsDebugView_post. exact H.
  - rewrite keeps_AllowDebugView_get. exact H.
  - rewrite keeps_CreateTokenView_get. exact H.
  - rewrite keeps_CreateTokenView_post. exact H.
Qed.

Lemma serve_after_consumption {rt : Runtime} {app : App}
    (later : list (Q * Call)) (ds : Datasette) (again : Request)
    (o : outcome Response) :
  _root_token ds = None ->
  In (GET_auth_token again, o) (fst (serve later ds)) ->
  o = Raise (Forbidden "Root token has already been used").
Proof.
  revert ds. induction later as [ | [now c] rest IH]; intros ds Hnone Hin.
  - contradiction.
  - simpl in Hin.
    assert (Hset : _root_token (set_time now ds) = None) by exact Hnone.
    pose proof (handle_keeps_consumed c (set_time now ds) Hset) as Hkeep.
    destruct (handle c (set_time now ds)) as [o1 ds1] eqn:Hrun.
    destruct (serve rest ds1) as [served ds2] eqn:Hrest.
    simpl in Hin, Hkeep. destruct Hin as [Hhead | Htail].
    + inversion Hhead; subst c o1.
      simpl in Hrun. rewrite (AuthTokenView_get_consumed again _ Hset) in Hrun.
      inversion Hrun. reflexivity.
    + apply (IH ds1 Hkeep). rewrite Hrest. exact Htail.
Qed.

(** C1: the first request that presents the live root secret is answered
    with a redirect whose [ds_actor] cookie is the actor [{"id": "root"}]
    signed under the namespace ["actor"], and it clears the secret; from
    then on, whatever the views above serve in between and whatever is
    presented, every request to the view fails with [Forbidden]. *)
Theorem root_token_single_use {rt : Runtime} {app : App}
    (ds : Datasette) (secret : string) (request : Request) :
  _root_token ds = Some secret ->
  str_truthy secret = true ->
  isascii secret = true ->
  presented_token request = secret ->
  exists ds',
    AuthTokenView_get request ds =
      (Return (Redirect urls_instance
                 [("ds_actor",
                   sign (PDict [("a", PDict [("id", PStr "root")])]) "actor")]),
       ds') /\
    _root_token ds' = None /\
    forall (later : list (Q * Call)) (again : Request) (o : outcome Response),
      In (GET_auth_token again, o) (fst (serve later ds')) ->
      o = Raise (Forbidden "Root token has already been used").
Proof.
  intros Hroot Hlive Hascii Htoken.
  exists (set_root_token None ds). split; [ | split ].
  - unfold AuthTokenView_get, bind, gets. rewrite Hroot, Hlive, Htoken. simpl.
    unfold compare_digest. rewrite Hascii, String.eqb_refl. reflexivity.
  - reflexivity.
  - intros later again o. apply serve_after_consumption. reflexivity.
Qed.

Lemma root_token_single_use_witness :
  exists ds',
    AuthTokenView_get (app := sample_app) sample_request sample_ds =
      (Return (Redirect "/"
                 [("ds_actor",
                   sign (App := sample_app)
                     (PDict [("a", PDict [("id", PStr "root")])]) "actor")]),
       ds') /\
    _root_token ds' = None /\
    forall (later : list (Q * Call)) (again : Request) (o : outcome Response),
      In (GET_auth_token again, o)
         (fst (serve (rt := sample_runtime) (app := sample_app) later ds')) ->
      o = Raise (Forbidden "Root token has already been used").
Proof.
  apply (@root_token_single_use sample_runtime sample_app
           sample_ds sample_secret sample_request);
    reflexivity.
Defined.

(** C2, as stated, fails: a wrong value presented while the secret is
    live and a value presented after the secret was consumed are answered
    with two different exceptions, so the caller can tell them apart. *)
Lemma bootstrap_failures_differ :
  ~ (forall (app : App) (live consumed : Datasette) (secret : string)
            (wrong any : Request),
        _root_token live = Some secret ->
        str_truthy secret = true ->
        (presented_token wrong =? secret) = false ->
        _root_token consumed = None ->
        fst (AuthTokenView_get wrong live) = fst (AuthTokenView_get any consumed)).
Proof.
  intros H.
  specialize (H sample_app sample_ds consumed_ds sample_secret
                wrong_request sample_request
                eq_refl eq_refl eq_refl eq_refl).
  vm_compute in H. discriminate H.
Qed.

(** C2, amended: both failures are [Forbidden] and leave the instance as
    it is, with two messages: a wrong ASCII value presented while the
    secret is live fails with "Invalid token", any value presented after
    the secret was consumed fails with "Root token has already been
    used". *)
Theorem bootstrap_failures_forbidden {app : App}
    (live consumed : Datasette) (secret : string) (wrong any : Request) :
  _root_token live = Some secret ->
  str_truthy secret = true ->
  isascii secret = true ->
  isascii (presented_token wrong) = true ->
  (presented_token wrong =? secret) = false ->
  _root_token consumed = None ->
  AuthTokenView_get wrong live = (Raise (Forbidden "Invalid token"), live) /\
  AuthTokenView_get any consumed =
    (Raise (Forbidden "Root token has already been used"), consumed).
Proof.
  intros Hroot Hlive Hascii Hwrong Hneq Hnone. split.
  - unfold AuthTokenView_get, bind, gets. rewrite Hroot, Hlive. simpl.
    unfold compare_digest. rewrite Hwrong, Hascii, Hneq. reflexivity.
  - apply AuthTokenView_get_consumed. exact Hnone.
Qed.

Lemma bootstrap_failures_forbidden_witness :
  AuthTokenView_get (app := sample_app) wrong_request sample_ds =
    (Raise (Forbidden "Invalid token"), sample_ds) /\
  AuthTokenView_get (app := sample_app) sample_request consumed_ds =
    (Raise (Forbidden "Root token has already been used"), consumed_ds).
Proof.
  apply (@bootstrap_failures_forbidden sample_app sample_ds consumed_ds
           sample_secret wrong_request sample_request);
    reflexivity.
Defined.

(** ** CreateTokenView: who may create a token *)

(** [check_permission] never writes to the instance. *)
Lemma check_permission_state {app : App} (request : Request) (ds : Datasette) :
  snd (check_permission request ds) = ds.
Proof.
  unfold check_permission.
  repeat match goal with
         | |- snd ((if ?b then _ else _) _) = _ => destruct b
         | |- snd ((match ?x with _ => _ end) _) = _ => destruct x
         end; reflexivity.
Qed.

(** When [check_permission] raises, both methods of the view raise the
    same exception and nothing is rendered. *)
Lemma check_permission_raises {rt : Runtime} {app : App}
    (request : Request) (ds : Datasette) (e : exn) :
  check_permission request ds = (Raise e, ds) ->
  CreateTokenView_get request ds = (Raise e, ds) /\
  CreateTokenView_post request ds = (Raise e, ds).
Proof.
  intros H. unfold CreateTokenView_get, CreateTokenView_post, bind.
  rewrite H. split; reflexivity.
Qed.

(** When [check_permission] returns, the setting is on and the actor is a
    dict with a true [id] and no true [token]. *)
Lemma check_permission_returns {app : App} (request : Request) (ds : Datasette) :
  fst (check_permission request ds) = Return tt ->
  truthy (setting "allow_signed_tokens") = true /\
  exists a, actor request = Some a /\
            opt_truthy (dict_get a "id") = true /\
            opt_truthy (dict_get a "token") = false.
Proof.
  unfold check_permission.
  destruct (truthy (setting "allow_signed_tokens")); simpl; [ | discriminate ].
  destruct (actor request) as [a | ]; simpl; [ | discriminate ].
  destruct (is_empty a); simpl; [ discriminate | ].
  destruct (opt_truthy (dict_get a "id")) eqn:Hid; simpl; [ | discriminate ].
  destruct (opt_truthy (dict_get a "token")) eqn:Htoken; simpl; [ discriminate | ].
  intros _. split; [ reflexivity | ]. exists a. repeat split; assumption || reflexivity.
Qed.

(** C8: with the setting [allow_signed_tokens] off, or without an actor,
    or with an actor that has no true [id], both [get] and [post] of the
    token creation view fail with [Forbidden]; nothing is rendered and the
    instance is left as it is. *)
Theorem create_token_preconditions {rt : Runtime} {app : App}
    (request : Request) (ds : Datasette) :
  truthy (setting "allow_signed_tokens") = false \/
  actor request = None \/
  (exists a, actor request = Some a /\ opt_truthy (dict_get a "id") = false) ->
  exists message,
    CreateTokenView_get request ds = (Raise (Forbidden message), ds) /\
    CreateTokenView_post request ds = (Raise (Forbidden message), ds).
Proof.
  intros H.
  assert (Hcheck : exists message,
             check_permission request ds = (Raise (Forbidden message), ds)).
  { unfold check_permission.
    destruct (truthy (setting "allow_signed_tokens")) eqn:Hsetting; simpl;
      [ | eexists; reflexivity ].
    destruct H as [H | [H | [a [Ha Hid]]]].
    - discriminate H.
    - rewrite H. simpl. eexists; reflexivity.
    - rewrite Ha. simpl. destruct (is_empty a); simpl; [ eexists; reflexivity | ].
      rewrite Hid. simpl. eexists; reflexivity. }
  destruct Hcheck as [message Hcheck]. exists message.
  apply check_permission_raises. exact Hcheck.
Qed.

Lemma create_token_preconditions_witness :
  exists message,
    CreateTokenView_get (app := sample_app) anonymous_request sample_ds =
      (Raise (Forbidden message), sample_ds) /\
    CreateTokenView_post (rt := sample_runtime) (app := sample_app)
      anonymous_request sample_ds =
      (Raise (Forbidden message), sample_ds).
Proof.
  apply (@create_token_preconditions sample_runtime sample_app
           anonymous_request sample_ds).
  right. left. reflexivity.
Defined.

(** C5: a request whose actor has a true [token] attribute cannot reach
    the token creation view: [get] and [post] both fail with [Forbidden],
    nothing is rendered and no token is signed. *)
Theorem token_actor_cannot_create_token {rt : Runtime} {app : App}
    (request : Request) (ds : Datasette) (a : pydict) :
  actor request = Some a ->
  opt_truthy (dict_get a "token") = true ->
  exists message,
    CreateTokenView_get request ds = (Raise (Forbidden message), ds) /\
    CreateTokenView_post request ds = (Raise (Forbidden message), ds).
Proof.
  intros Ha Htoken.
  assert (Hcheck : exists message,
             check_permission request ds = (Raise (Forbidden message), ds)).
  { unfold check_permission. rewrite Ha. simpl.
    destruct (truthy (setting "allow_signed_tokens")); simpl;
      [ | eexists; reflexivity ].
    destruct (is_empty a); simpl; [ eexists; reflexivity | ].
    destruct (opt_truthy (dict_get a "id")); simpl; [ | eexists; reflexivity ].
    rewrite Htoken. eexists; reflexivity. }
  destruct Hcheck as [message Hcheck]. exists message.
  apply check_permission_raises. exact Hcheck.
Qed.

Lemma token_actor_cannot_create_token_witness :
  exists message,
    CreateTokenView_get (app := sample_app) token_actor_request sample_ds =
      (Raise (Forbidden message), sample_ds) /\
    CreateTokenView_post (rt := sample_runtime) (app := sample_app)
      token_actor_request sample_ds =
      (Raise (Forbidden message), sample_ds).
Proof.
  apply (@token_actor_cannot_create_token sample_runtime sample_app
           token_actor_request sample_ds
           [("id", PStr "alice"); ("token", PStr "dstok")]);
    reflexivity.
Defined.

(** ** CreateTokenView: issuing a token *)

Lemma truthy_opt_str (o : option string) :
  opt_str_truthy o = true -> exists s, o = Some s /\ str_truthy s = true.
Proof.
  destruct o as [s | ]; simpl; intros H; [ | discriminate ].
  exists s. split; [ reflexivity | exact H ].
Qed.

Lemma truthy_opt (o : option pyval) :
  opt_truthy o = true -> exists v, o = Some v /\ truthy v = true.
Proof.
  destruct o as [v | ]; simpl; intros H; [ | discriminate ].
  exists v. split; [ reflexivity | exact H ].
Qed.

Lemma map_PStr_nil (l : list string) : map PStr l = [] -> l = [].
Proof. destruct l; [ reflexivity | discriminate ]. Qed.

(** What [parse_expiry] has checked when it returns without an error. *)
Lemma parse_expiry_clean {rt : Runtime} (post : list (string * string))
    (ds ds1 : Datasette) (duration : option Z) :
  parse_expiry post ds = (Return ([], duration), ds1) ->
  ds1 = ds /\
  if opt_str_truthy (dict_get post "expire_type") then
    exists unit text n,
      dict_get post "expire_type" = Some unit /\
      dict_get post "expire_duration" = Some text /\
      isdigit text = true /\
      py_int text = inr n /\
      (0 < n)%Z /\
      ((unit = "minutes" /\ duration = Some (n * 60)%Z) \/
       (unit = "hours" /\ duration = Some (n * 3600)%Z) \/
       (unit = "days" /\ duration = Some (n * 86400)%Z))
  else duration = None.
Proof.
  unfold parse_expiry.
  destruct (opt_str_truthy (dict_get post "expire_type")) eqn:Hrequested.
  - destruct (truthy_opt_str _ Hrequested) as [unit [Hunit _]].
    unfold bind, lift, dict_item. rewrite Hunit.
    destruct (dict_get post "expire_duration") as [text | ]; simpl;
      [ | intros H; inversion H ].
    destruct (str_truthy text); simpl; [ | intros H; inversion H ].
    destruct (isdigit text) eqn:Hdigit; simpl; [ | intros H; inversion H ].
    destruct (py_int text) as [e | n] eqn:Hint; simpl; [ intros H; inversion H | ].
    destruct (n >? 0)%Z eqn:Hpos; simpl; [ | intros H; inversion H ].
    apply Z.gtb_lt in Hpos.
    destruct (unit =? "minutes") eqn:Hm; simpl.
    { apply String.eqb_eq in Hm. intros H. inversion H. split; [ reflexivity | ].
      exists unit, text, n. repeat split; try assumption || reflexivity.
      left. split; [ exact Hm | reflexivity ]. }
    destruct (unit =? "hours") eqn:Hh; simpl.
    { apply String.eqb_eq in Hh. intros H. inversion H. split; [ reflexivity | ].
      exists unit, text, n. repeat split; try assumption || reflexivity.
      right; left. split; [ exact Hh | f_equal; lia ]. }
    destruct (unit =? "days") eqn:Hd; simpl.
    { apply String.eqb_eq in Hd. intros H. inversion H. split; [ reflexivity | ].
      exists unit, text, n. repeat split; try assumption || reflexivity.
      right; right. split; [ exact Hd | f_equal; lia ]. }
    intros H; inversion H.
  - intros H. inversion H. split; reflexivity.
Qed.

(** C3: when [post] renders the page without an error, the token shown
    is ["dstok_"] followed by the signature, under the namespace
    ["token"], of the payload with the id of the actor under [a], the
    clock reading cut to an integer under [t] and, only if an expiry was
    requested (a true [expire_type]), the duration under [d]: the count
    [n], a positive integer, times 60 for minutes, 3600 for hours and
    86400 for days.  Without a requested expiry the payload has no [d]. *)
Theorem issued_token_payload {rt : Runtime} {app : App}
    (request : Request) (ds ds' : Datasette) (response : Response) :
  CreateTokenView_post request ds = (Return response, ds') ->
  dict_get (context_of response) "errors" = Some (PList []) ->
  exists (a : pydict) (id : pyval) (extra : pydict),
    actor request = Some a /\
    dict_get a "id" = Some id /\
    let payload :=
      PDict ([("a", id); ("t", PInt (int_of_float (time_time ds)))] ++ extra) in
    dict_get (context_of response) "token" =
      Some (PStr ("dstok_" ++ sign payload "token")) /\
    dict_get (context_of response) "token_bits" = Some payload /\
    if opt_str_truthy (dict_get (post_vars request) "expire_type") then
      exists unit text n,
        dict_get (post_vars request) "expire_type" = Some unit /\
        dict_get (post_vars request) "expire_duration" = Some text /\
        isdigit text = true /\
        py_int text = inr n /\
        (0 < n)%Z /\
        ((unit = "minutes" /\ extra = [("d", PInt (n * 60))]) \/
         (unit = "hours" /\ extra = [("d", PInt (n * 3600))]) \/
         (unit = "days" /\ extra = [("d", PInt (n * 86400))]))
    else extra = [].
Proof.
  unfold CreateTokenView_post, bind at 1.
  pose proof (check_permission_state request ds) as Hstate.
  pose proof (check_permission_returns request ds) as Hchecked.
  destruct (check_permission request ds) as [[[] | e] ds0]; simpl in Hstate;
    [ | intros H; inversion H ].
  subst ds0. destruct (Hchecked eq_refl) as [_ [a [Ha [Hid _]]]].
  destruct (truthy_opt _ Hid) as [id [Hget _]].
  unfold bind at 1.
  destruct (parse_expiry (post_vars request) ds) as [[[errors duration] | e] ds1]
    eqn:Hparse; [ | intros H; inversion H ].
  destruct errors as [ | err errors ];
    [ | simpl; unfold bind, ret; rewrite render_run; intros H; inversion H;
        subst response; simpl; discriminate ].
  apply parse_expiry_clean in Hparse. destruct Hparse as [Hds1 Hduration].
  subst ds1. simpl. unfold bind, lift, actor_item, dict_item, gets, ret.
  rewrite Ha, Hget. simpl. rewrite render_run.
  destruct (opt_str_truthy (dict_get (post_vars request) "expire_type")).
  - destruct Hduration as [unit [text [n [Hunit [Htext [Hdigit [Hint [Hpos Hcase]]]]]]]].
    assert (Htruthy : forall k, (0 < k)%Z -> negb (n * k =? 0)%Z = true).
    { intros k Hk. apply negb_true_iff, Z.eqb_neq. nia. }
    intros H _. inversion H; subst response ds'; clear H.
    destruct Hcase as [[Hu Hd] | [[Hu Hd] | [Hu Hd]]]; subst duration;
      rewrite Htruthy by lia;
      eexists a, id, _; (split; [ reflexivity | ]); (split; [ exact Hget | ]);
      simpl; (split; [ reflexivity | ]); (split; [ reflexivity | ]);
      exists unit, text, n; repeat split; try assumption.
    + left. split; [ exact Hu | reflexivity ].
    + right; left. split; [ exact Hu | reflexivity ].
    + right; right. split; [ exact Hu | reflexivity ].
  - subst duration. intros H _. inversion H; subst response ds'; clear H.
    exists a, id, []. repeat split; try assumption || reflexivity.
Qed.


Lemma issued_token_payload_witness :
  exists (a : pydict) (id : pyval) (extra : pydict),
    actor (expiry_request "hours" "2") = Some a /\
    dict_get a "id" = Some id /\
    let payload :=
      PDict ([("a", id); ("t", PInt (int_of_float (time_time sample_ds)))] ++ extra) in
    dict_get (context_of two_hours_page) "token" =
      Some (PStr ("dstok_" ++ sign (App := sample_app) payload "token")) /\
    dict_get (context_of two_hours_page) "token_bits" = Some payload /\
    if opt_str_truthy (dict_get (post_vars (expiry_request "hours" "2")) "expire_type")
    then
      exists unit text n,
        dict_get (post_vars (expiry_request "hours" "2")) "expire_type" = Some unit /\
        dict_get (post_vars (expiry_request "hours" "2")) "expire_duration" = Some text /\
        isdigit (rt := sample_runtime) text = true /\
        py_int (rt := sample_runtime) text = inr n /\
        (0 < n)%Z /\
        ((unit = "minutes" /\ extra = [("d", PInt (n * 60))]) \/
         (unit = "hours" /\ extra = [("d", PInt (n * 3600))]) \/
         (unit = "days" /\ extra = [("d", PInt (n * 86400))]))
    else extra = [].
Proof.
  apply (@issued_token_payload sample_runtime sample_app
           (expiry_request "hours" "2") sample_ds
           (snd (CreateTokenView_post (rt := sample_runtime) (app := sample_app)
                   (expiry_request "hours" "2") sample_ds))
           two_hours_page);
    reflexivity.
Defined.

Lemma digits_are_ascii (s : string) : ascii_isdigit s = true -> isascii s = true.
Proof.
  unfold ascii_isdigit. intros H. apply andb_true_iff in H. destruct H as [_ H].
  induction s as [ | c rest IH]; [ reflexivity | ].
  simpl in *. apply andb_true_iff in H. destruct H as [Hc Hrest].
  rewrite (IH Hrest), andb_true_r.
  unfold is_digit_char in Hc. unfold is_ascii_char.
  apply andb_true_iff in Hc. destruct Hc as [_ Hc].
  apply N.leb_le in Hc. apply N.ltb_lt. lia.
Qed.

(** X7: a request that passes [check_permission] and asks for no expiry
    (no [expire_type], or an empty one) is answered with a token whose
    payload has the keys [a] and [t] only, whatever [expire_duration]
    holds: the view hands the page with this token to the renderer, on
    the instance as it found it. *)
Lemma token_issued_without_expiry {rt : Runtime} {app : App}
    (request : Request) (ds : Datasette) :
  check_permission request ds = (Return tt, ds) ->
  opt_str_truthy (dict_get (post_vars request) "expire_type") = false ->
  exists id,
    actor_item (actor request) "id" = inr id /\
    let payload := PDict [("a", id); ("t", PInt (int_of_float (time_time ds)))] in
    CreateTokenView_post request ds =
      render ["create_token.html"] request
        [("actor", actor_value (actor request));
         ("errors", PList []);
         ("token", PStr ("dstok_" ++ sign payload "token"));
         ("token_bits", payload)] ds.
Proof.
  intros Hcheck Hnone.
  assert (Hfst : fst (check_permission request ds) = Return tt)
    by (rewrite Hcheck; reflexivity).
  destruct (check_permission_returns request ds Hfst) as [_ [a [Ha [Hid _]]]].
  destruct (truthy_opt _ Hid) as [id [Hget _]].
  exists id. unfold actor_item, dict_item. rewrite Ha, Hget.
  split; [ reflexivity | ].
  unfold CreateTokenView_post, bind at 1. rewrite Hcheck.
  unfold parse_expiry. rewrite Hnone.
  unfold bind, lift, actor_item, dict_item, gets, ret. rewrite Ha, Hget.
  reflexivity.
Qed.

(** X8: a request that passes [check_permission] and asks for an expiry
    of [text] minutes, hours or days, [text] a run of ASCII digits that
    denotes a positive number and is not longer than [int] allows, is
    answered with a token whose payload has the duration in seconds under
    [d]: the view hands the page with this token to the renderer, on the
    instance as it found it. *)
Lemma token_issued_with_expiry {rt : Runtime} {app : App}
    (request : Request) (ds : Datasette) (unit text : string) (per : Z) :
  check_permission request ds = (Return tt, ds) ->
  dict_get (post_vars request) "expire_type" = Some unit ->
  (unit = "minutes" /\ per = 60%Z) \/
  (unit = "hours" /\ per = 3600%Z) \/
  (unit = "days" /\ per = 86400%Z) ->
  dict_get (post_vars request) "expire_duration" = Some text ->
  ascii_isdigit text = true ->
  exceeds_digit_limit text = false ->
  (0 < decimal_value 0 text)%Z ->
  exists id,
    actor_item (actor request) "id" = inr id /\
    let payload :=
      PDict [("a", id); ("t", PInt (int_of_float (time_time ds)));
             ("d", PInt (decimal_value 0 text * per))] in
    CreateTokenView_post request ds =
      render ["create_token.html"] request
        [("actor", actor_value (actor request));
         ("errors", PList []);
         ("token", PStr ("dstok_" ++ sign payload "token"));
         ("token_bits", payload)] ds.
Proof.
  intros Hcheck Hunit Hper Htext Hdigit Hlimit Hpos.
  pose proof (digits_are_ascii text Hdigit) as Hascii.
  assert (Hfst : fst (check_permission request ds) = Return tt)
    by (rewrite Hcheck; reflexivity).
  destruct (check_permission_returns request ds Hfst) as [_ [a [Ha [Hid _]]]].
  destruct (truthy_opt _ Hid) as [id [Hget _]].
  exists id. unfold actor_item, dict_item. rewrite Ha, Hget.
  split; [ reflexivity | ].
  assert (Hnonempty : str_truthy text = true).
  { unfold ascii_isdigit in Hdigit. apply andb_true_iff in Hdigit. tauto. }
  assert (Hgt : (decimal_value 0 text >? 0)%Z = true) by (apply Z.gtb_lt; lia).
  assert (Htruthy : forall d, (0 < d)%Z -> negb (d =? 0)%Z = true).
  { intros d Hd. apply negb_true_iff, Z.eqb_neq. lia. }
  unfold CreateTokenView_post, bind at 1. rewrite Hcheck.
  unfold parse_expiry, invalid_duration, int_of, isdigit, py_int.
  rewrite Hunit, Htext. simpl opt_str_truthy.
  destruct Hper as [[Hu Hp] | [[Hu Hp] | [Hu Hp]]]; subst unit per;
    unfold bind, lift, actor_item, dict_item, gets, ret;
    rewrite Hunit, Ha, Hget, Hnonempty, Hascii, Hdigit, Hlimit; simpl;
    rewrite Hgt; simpl; rewrite Htruthy by lia;
    try replace (decimal_value 0 text * 60 * 60 * 24)%Z
          with (decimal_value 0 text * 86400)%Z by lia;
    try replace (decimal_value 0 text * 60 * 60)%Z
          with (decimal_value 0 text * 3600)%Z by lia;
    reflexivity.
Qed.

(** ** CreateTokenView: expiry specifications that are refused *)

(** The page of a refused request: the errors, and no token. *)
Lemma refused_page {rt : Runtime} {app : App}
    (request : Request) (ds : Datasette) (errors : list string) :
  check_permission request ds = (Return tt, ds) ->
  (exists duration,
      parse_expiry (post_vars request) ds = (Return (errors, duration), ds)) ->
  errors <> [] ->
  CreateTokenView_post request ds =
    render ["create_token.html"] request
      [("actor", actor_value (actor request));
       ("errors", PList (map PStr errors));
       ("token", PNone);
       ("token_bits", PNone)] ds.
Proof.
  intros Hcheck [duration Hparse] Hne.
  unfold CreateTokenView_post, bind at 1. rewrite Hcheck.
  unfold bind at 1. rewrite Hparse.
  destruct errors as [ | err errors ]; [ contradiction | reflexivity ].
Qed.

(** X9: an expiry is requested and [isdigit] refuses the count, or there
    is no count, or the count is not positive, or the count is a positive
    number and the unit is not one of the three: the page lists an error
    and shows no token; nothing is raised, and the view hands this page
    to the renderer on the instance as it found it. *)
Lemma invalid_expiry_reported {rt : Runtime} {app : App}
    (request : Request) (ds : Datasette) (unit : string) :
  check_permission request ds = (Return tt, ds) ->
  dict_get (post_vars request) "expire_type" = Some unit ->
  str_truthy unit = true ->
  opt_str_truthy (dict_get (post_vars request) "expire_duration") = false \/
  (exists text, dict_get (post_vars request) "expire_duration" = Some text /\
                isdigit text = false) \/
  (exists text n, dict_get (post_vars request) "expire_duration" = Some text /\
                  py_int text = inr n /\ (n <= 0)%Z) \/
  (exists text n, dict_get (post_vars request) "expire_duration" = Some text /\
                  py_int text = inr n /\
                  unit <> "minutes" /\ unit <> "hours" /\ unit <> "days") ->
  exists errors,
    errors <> [] /\
    CreateTokenView_post request ds =
      render ["create_token.html"] request
        [("actor", actor_value (actor request));
         ("errors", PList (map PStr errors));
         ("token", PNone);
         ("token_bits", PNone)] ds.
Proof.
  intros Hcheck Hunit Htruthy Hcase.
  assert (Hparse : exists errors duration,
             errors <> [] /\
             parse_expiry (post_vars request) ds = (Return (errors, duration), ds)).
  { unfold parse_expiry, invalid_duration, dict_item, bind, lift.
    rewrite Hunit. unfold opt_str_truthy. rewrite Htruthy.
    destruct (dict_get (post_vars request) "expire_duration") as [text | ] eqn:Htext;
      [ | exists ["Invalid expire duration"], None; split;
          [ discriminate | reflexivity ] ].
    destruct (str_truthy text) eqn:Hnonempty; simpl;
      [ | exists ["Invalid expire duration"], None; split;
          [ discriminate | reflexivity ] ].
    destruct (isdigit text) eqn:Hdigit; simpl;
      [ | exists ["Invalid expire duration"], None; split;
          [ discriminate | reflexivity ] ].
    destruct Hcase as [H | [[t [Ht H]] | [[t [n [Ht [Hint H]]]] | [t [n [Ht [Hint H]]]]]]].
    - simpl in H. rewrite Hnonempty in H. discriminate H.
    - inversion Ht; subst t. rewrite Hdigit in H. discriminate H.
    - inversion Ht; subst t. rewrite Hint. simpl.
      assert (Hgt : (n >? 0)%Z = false)
        by (rewrite Z.gtb_ltb; apply Z.ltb_ge; lia).
      rewrite Hgt. simpl.
      exists ["Invalid expire duration"], None; split; [ discriminate | reflexivity ].
    - inversion Ht; subst t. rewrite Hint. simpl.
      destruct (n >? 0)%Z; simpl;
        [ | exists ["Invalid expire duration"], None; split;
            [ discriminate | reflexivity ] ].
      destruct H as [Hm [Hh Hd]].
      apply String.eqb_neq in Hm, Hh, Hd. rewrite Hm, Hh, Hd.
      exists ["Invalid expire duration unit"], None; split;
        [ discriminate | reflexivity ]. }
  destruct Hparse as [errors [duration [Hne Hparse]]].
  exists errors. split; [ exact Hne | ].
  apply refused_page; [ exact Hcheck | exists duration; exact Hparse | exact Hne ].
Qed.

(** C4, where the code departs from it: an expiry whose count is a digit
    string for [isdigit] that [int] rejects is not answered with a list
    of errors; [post] raises the [ValueError] of [int], whatever the
    unit, also one that is none of minutes, hours and days. *)
Theorem count_that_int_rejects_raises {rt : Runtime} {app : App}
    (request : Request) (ds : Datasette) (unit text : string) (e : exn) :
  check_permission request ds = (Return tt, ds) ->
  dict_get (post_vars request) "expire_type" = Some unit ->
  str_truthy unit = true ->
  dict_get (post_vars request) "expire_duration" = Some text ->
  str_truthy text = true ->
  isdigit text = true ->
  py_int text = inl e ->
  CreateTokenView_post request ds = (Raise e, ds).
Proof.
  intros Hcheck Hunit Htruthy Htext Hnonempty Hdigit Hint.
  unfold CreateTokenView_post, bind at 1. rewrite Hcheck.
  unfold parse_expiry, invalid_duration, bind, lift.
  rewrite Hunit, Htext. unfold opt_str_truthy.
  rewrite Htruthy, Hnonempty, Hdigit, Hint. reflexivity.
Qed.

(** The unit ["fortnights"] with the superscript two (U+00B2) as count. *)
Lemma count_that_int_rejects_raises_witness :
  CreateTokenView_post (rt := sample_runtime) (app := sample_app)
    (expiry_request "fortnights" superscript_two) sample_ds =
    (Raise (ValueError "invalid literal for int() with base 10"), sample_ds).
Proof.
  apply (@count_that_int_rejects_raises sample_runtime sample_app
           (expiry_request "fortnights" superscript_two) sample_ds
           "fortnights" superscript_two);
    reflexivity.
Defined.

(** ** AllowDebugView *)

Lemma str_or_falsy (o : option string) (default : string) :
  opt_str_truthy o = false -> str_or o default = default.
Proof. intros H. unfold str_or. rewrite H. reflexivity. Qed.


(** When both texts parse, the view is one call of the matcher, and then
    the rendering of its answer. *)
Lemma matcher_called_when_parsed {rt : Runtime} {app : App}
    (request : Request) (ds : Datasette) (a r : pyval) :
  json_loads (str_or (dict_get (args request) "actor") default_actor_input)
    = inr a ->
  json_loads (str_or (dict_get (args request) "allow") default_allow_input)
    = inr r ->
  AllowDebugView_get request ds =
    match actor_matches_allow a r with
    | inr b =>
        render ["allow_debug.html"] request
          [("result", PStr (str_of_bool b));
           ("error", PStr "");
           ("actor_input", PStr (json_dumps a));
           ("allow_input", PStr (json_dumps r))]
          (log_matcher_call a r ds)
    | inl e => (Raise e, log_matcher_call a r ds)
    end.
Proof.
  intros Ha Hr. unfold AllowDebugView_get, parse_input. rewrite Ha, Hr.
  unfold bind, call_matcher, local, modify, lift, ret. simpl.
  destruct (actor_matches_allow a r) as [e | b]; reflexivity.
Qed.





(** C10: a request without a true [actor] parameter is served as if the
    text of the actor were [{"id": "root"}], one without a true [allow]
    parameter as if the text of the rule were [{"id": "*"}]: given that
    [json.loads] reads these two texts as the dicts they write, the
    matcher is called on the actor [{"id": "root"}], respectively on
    the rule [{"id": "*"}]; a request with neither calls the matcher on
    these two values and renders its answer, with no error. *)
Theorem allow_debug_defaults {rt : Runtime} {app : App}
    (request : Request) (ds : Datasette) :
  let root_text :=
    "{" ++ dquote ++ "id" ++ dquote ++ ": " ++ dquote ++ "root" ++ dquote ++ "}" in
  let star_text :=
    "{" ++ dquote ++ "id" ++ dquote ++ ": " ++ dquote ++ "*" ++ dquote ++ "}" in
  let root := PDict [("id", PStr "root")] in
  let star := PDict [("id", PStr "*")] in
  let answer a r :=
    match actor_matches_allow a r with
    | inr b =>
        render ["allow_debug.html"] request
          [("result", PStr (str_of_bool b));
           ("error", PStr "");
           ("actor_input", PStr (json_dumps a));
           ("allow_input", PStr (json_dumps r))]
          (log_matcher_call a r ds)
    | inl e => (Raise e, log_matcher_call a r ds)
    end in
  json_loads root_text = inr root ->
  json_loads star_text = inr star ->
  (opt_str_truthy (dict_get (args request) "actor") = false ->
   forall r,
     json_loads (str_or (dict_get (args request) "allow") star_text) = inr r ->
     AllowDebugView_get request ds = answer root r) /\
  (opt_str_truthy (dict_get (args request) "allow") = false ->
   forall a,
     json_loads (str_or (dict_get (args request) "actor") root_text) = inr a ->
     AllowDebugView_get request ds = answer a star) /\
  (opt_str_truthy (dict_get (args request) "actor") = false ->
   opt_str_truthy (dict_get (args request) "allow") = false ->
   AllowDebugView_get request ds = answer root star).
Proof.
  cbv zeta. intros Hactor Hallow.
  pose proof (matcher_called_when_parsed request ds) as Hrun.
  split; [ | split ].
  - intros Hno r Hr. apply Hrun.
    + rewrite (str_or_falsy _ _ Hno). exact Hactor.
    + exact Hr.
  - intros Hno a Ha. apply Hrun.
    + exact Ha.
    + rewrite (str_or_falsy _ _ Hno). exact Hallow.
  - intros Hno_actor Hno_allow. apply Hrun.
    + rewrite (str_or_falsy _ _ Hno_actor). exact Hactor.
    + rewrite (str_or_falsy _ _ Hno_allow). exact Hallow.
Qed.

Lemma allow_debug_defaults_witness :
  AllowDebugView_get (rt := sample_runtime) (app := sample_app)
    anonymous_request sample_ds =
    (Return (Render ["allow_debug.html"] anonymous_request
               [("result", PStr "True");
                ("error", PStr "");
                ("actor_input", PStr (encode (PDict [("id", PStr "root")])));
                ("allow_input", PStr (encode (PDict [("id", PStr "*")])))]),
     set_permission_checks
       [mkCheck PNone "debug-menu" [] true (PBool false);
        mkCheck PNone "debug-menu" [] true (PBool false)]
       (log_matcher_call (PDict [("id", PStr "root")]) (PDict [("id", PStr "*")])
          sample_ds)).
Proof.
  destruct (@allow_debug_defaults sample_runtime sample_app
              anonymous_request sample_ds eq_refl eq_refl)
    as [_ [_ Hboth]].
  exact (Hboth eq_refl eq_refl).
Defined.

(** ** PermissionsDebugView *)

Lemma permission_allowed_run {app : App} (a : pyval) (permission : string)
    (resource : list string) (default : pyval) (ds : Datasette) :
  permission_allowed a permission resource default ds =
    (Return (pc_result (check_record a permission resource default)),
     set_permission_checks
       (ring_append maxlen (_permission_checks ds)
          (check_record a permission resource default)) ds).
Proof. reflexivity. Qed.

Lemma ensure_permission_run {app : App} (a : pyval) (permission : string)
    (ds : Datasette) :
  truthy (resolve permission (pc_result (check_record a permission [] PNone)))
    = true ->
  ensure_permissions a [permission] ds =
    (Return tt,
     set_permission_checks
       (ring_append maxlen (_permission_checks ds)
          (check_record a permission [] PNone)) ds).
Proof.
  intros H. unfold ensure_permissions, bind.
  rewrite permission_allowed_run, H. reflexivity.
Qed.

(** C7, as stated, fails: [get] does not leave the log of checks as it
    found it. *)
Lemma permissions_debug_get_logs_its_checks :
  ~ (forall (app : App) (request : Request) (ds : Datasette),
        _permission_checks (snd (PermissionsDebugView_get request ds)) =
          _permission_checks ds).
Proof.
  intros H. specialize (H sample_app sample_request sample_ds).
  vm_compute in H. discriminate H.
Qed.

(** C7, amended: when its two permission checks pass, [get] shows the
    records of the log most recent first, the reverse of the order in
    which the log holds them when the list is built, the records of its
    own two checks included; building the list takes nothing from the
    log and adds nothing to it: the page is handed to the renderer on
    the instance with the log as it was before the request and these two
    records appended.  The checks the renderer makes after that are
    logged too; they are not in the list. *)
Theorem permissions_debug_read {app : App} (request : Request) (ds : Datasette) :
  let a := actor_value (actor request) in
  let gate1 := check_record a "view-instance" [] PNone in
  let gate2 := check_record a "permissions-debug" [] omitted_default in
  let logged :=
    ring_append maxlen (ring_append maxlen (_permission_checks ds) gate1) gate2 in
  let shown :=
    [("permission_checks", PList (map check_value (rev logged)));
     ("permissions", PERMISSIONS)] in
  truthy (resolve "view-instance" (pc_result gate1)) = true ->
  truthy (pc_result gate2) = true ->
  PermissionsDebugView_get request ds =
    render ["permissions_debug.html"] request shown
      (set_permission_checks logged ds) /\
  fst (PermissionsDebugView_get request ds) =
    Return (Render ["permissions_debug.html"] request shown).
Proof.
  cbv zeta. intros Hfirst Hsecond.
  assert (Hrun :
    PermissionsDebugView_get request ds =
      render ["permissions_debug.html"] request
        [("permission_checks",
          PList (map check_value
                   (rev (ring_append maxlen
                           (ring_append maxlen (_permission_checks ds)
                              (check_record (actor_value (actor request))
                                 "view-instance" [] PNone))
                           (check_record (actor_value (actor request))
                              "permissions-debug" [] omitted_default)))));
         ("permissions", PERMISSIONS)]
        (set_permission_checks
           (ring_append maxlen
              (ring_append maxlen (_permission_checks ds)
                 (check_record (actor_value (actor request))
                    "view-instance" [] PNone))
              (check_record (actor_value (actor request))
                 "permissions-debug" [] omitted_default))
           ds)).
  { unfold PermissionsDebugView_get, bind.
    rewrite (ensure_permission_run _ "view-instance" ds Hfirst).
    rewrite permission_allowed_run, Hsecond. reflexivity. }
  split; [ exact Hrun | ].
  rewrite Hrun, render_run. reflexivity.
Qed.

Lemma permissions_debug_read_witness :
  PermissionsDebugView_get (app := sample_app) sample_request sample_ds =
    (Return (Render ["permissions_debug.html"] sample_request
               [("permission_checks",
                 PList (map check_value
                          [mkCheck (PDict [("id", PStr "root")]) "permissions-debug"
                             [] false (PBool true);
                           mkCheck (PDict [("id", PStr "root")]) "view-instance"
                             [] false (PBool true)]));
                ("permissions", PTuple [])]),
     set_permission_checks
       [mkCheck (PDict [("id", PStr "root")]) "view-instance" [] false (PBool true);
        mkCheck (PDict [("id", PStr "root")]) "permissions-debug" [] false
          (PBool true);
        mkCheck (PDict [("id", PStr "root")]) "debug-menu" [] false (PBool true);
        mkCheck (PDict [("id", PStr "root")]) "debug-menu" [] false (PBool true)]
       sample_ds).
Proof.
  apply (@permissions_debug_read sample_app sample_request sample_ds);
    reflexivity.
Defined.

Lemma build_resource_filter (resource_1 resource_2 : string) :
  build_resource resource_1 resource_2 = filter str_truthy [resource_1; resource_2].
Proof.
  unfold build_resource. simpl.
  destruct (str_truthy resource_1), (str_truthy resource_2); reflexivity.
Qed.

(** C9: the resource that [post] passes to the evaluator, and shows in
    its answer, is the tuple of those of [resource_1], [resource_2], in
    this order, that are not empty; with [resource_1] empty and
    [resource_2] not, it is the tuple of [resource_2] alone. *)
Theorem permissions_debug_post_resource {rt : Runtime} {app : App}
    (request : Request) (ds : Datasette)
    (actor_text permission resource_1 resource_2 : string) (checked : pyval) :
  let a := actor_value (actor request) in
  let gate1 := check_record a "view-instance" [] PNone in
  let gate2 := check_record a "permissions-debug" [] omitted_default in
  let logged :=
    ring_append maxlen (ring_append maxlen (_permission_checks ds) gate1) gate2 in
  let resource := filter str_truthy [resource_1; resource_2] in
  let asked := check_record checked permission resource (PStr "USE_DEFAULT") in
  truthy (resolve "view-instance" (pc_result gate1)) = true ->
  truthy (pc_result gate2) = true ->
  dict_get (post_vars request) "actor" = Some actor_text ->
  json_loads actor_text = inr checked ->
  dict_get (post_vars request) "permission" = Some permission ->
  dict_get (post_vars request) "resource_1" = Some resource_1 ->
  dict_get (post_vars request) "resource_2" = Some resource_2 ->
  PermissionsDebugView_post request ds =
    (Return (JsonResponse
               (PDict [("actor", checked);
                       ("permission", PStr permission);
                       ("resource", PTuple (map PStr resource));
                       ("result", pc_result asked)])),
     set_permission_checks (ring_append maxlen logged asked) ds) /\
  pc_resource asked = resource /\
  (str_truthy resource_1 = false -> str_truthy resource_2 = true ->
   resource = [resource_2]).
Proof.
  cbv zeta. intros Hfirst Hsecond Hactor Hloads Hperm Hr1 Hr2.
  split; [ | split ].
  - unfold PermissionsDebugView_post, bind.
    rewrite (ensure_permission_run _ "view-instance" ds Hfirst).
    rewrite permission_allowed_run, Hsecond. unfold dict_item, lift, ret.
    cbv beta iota. rewrite Hactor. cbv beta iota. rewrite Hloads.
    cbv beta iota. rewrite Hperm. cbv beta iota. rewrite Hr1.
    cbv beta iota. rewrite Hr2. cbv beta iota.
    rewrite build_resource_filter. reflexivity.
  - reflexivity.
  - intros H1 H2. simpl. rewrite H1, H2. reflexivity.
Qed.

Lemma permissions_debug_post_resource_witness :
  exists logged,
    PermissionsDebugView_post (rt := sample_runtime) (app := sample_app)
      resource_request sample_ds =
      (Return (JsonResponse
                 (PDict [("actor", PDict []);
                         ("permission", PStr "view-table");
                         ("resource", PTuple [PStr "events"]);
                         ("result", PStr "USE_DEFAULT")])),
       set_permission_checks
         (ring_append 200 logged
            (mkCheck (PDict []) "view-table" ["events"] true (PStr "USE_DEFAULT")))
         sample_ds).
Proof.
  eexists.
  apply (@permissions_debug_post_resource sample_runtime sample_app
           resource_request sample_ds "{}" "view-table" "" "events" (PDict []));
    reflexivity.
Defined.

(** * More properties of the views *)

(** ** Frames *)

Lemma keeps_of_ret {A B : Type} (f : Datasette -> B) (a : A) : keeps f (ret a).
Proof. intro ds. reflexivity. Qed.

Lemma keeps_of_raise {A B : Type} (f : Datasette -> B) (e : exn) :
  keeps f (@raise A e).
Proof. intro ds. reflexivity. Qed.

Lemma keeps_of_gets {A B : Type} (f : Datasette -> B) (g : Datasette -> A) :
  keeps f (gets g).
Proof. intro ds. reflexivity. Qed.

Lemma keeps_of_lift {A B : Type} (f : Datasette -> B) (r : exn + A) :
  keeps f (lift r).
Proof. destruct r; intro ds; reflexivity. Qed.

Lemma keeps_of_local {A B : Type} (f : Datasette -> B) (name : string)
    (v : option A) :
  keeps f (local name v).
Proof. destruct v; intro ds; reflexivity. Qed.

Lemma keeps_of_modify {B : Type} (f : Datasette -> B) (g : Datasette -> Datasette) :
  (forall ds, f (g ds) = f ds) -> keeps f (modify g).
Proof. intros Hg ds. apply Hg. Qed.

Lemma keeps_of_bind {A B C : Type} (f : Datasette -> C) (m : M A) (k : A -> M B) :
  keeps f m -> (forall a, keeps f (k a)) -> keeps f (bind m k).
Proof.
  intros Hm Hk ds. unfold bind. specialize (Hm ds).
  destruct (m ds) as [[a | e] ds1]; simpl in *.
  - rewrite Hk. exact Hm.
  - exact Hm.
Qed.

Create HintDb keep.

#[local] Hint Resolve keeps_of_ret keeps_of_raise keeps_of_gets keeps_of_lift
  keeps_of_local : keep.

Ltac keep_step :=
  match goal with
  | |- keeps _ (bind _ _) => apply keeps_of_bind; [ | intros ? ]
  | |- keeps _ (modify _) => apply keeps_of_modify; intros ?; reflexivity
  | |- keeps _ (if ?b then _ else _) => destruct b
  | |- keeps _ (match ?x with _ => _ end) => destruct x
  | |- keeps _ _ => solve [ auto with keep ]
  end.

Lemma check_permission_keeps {app : App} {B : Type} (f : Datasette -> B) request :
  keeps f (check_permission request).
Proof. unfold check_permission. repeat keep_step. Qed.

Lemma parse_expiry_keeps {rt : Runtime} {B : Type} (f : Datasette -> B) post :
  keeps f (parse_expiry post).
Proof. unfold parse_expiry. repeat keep_step. Qed.

#[local] Hint Resolve check_permission_keeps parse_expiry_keeps : keep.

Lemma AuthTokenView_get_keeps_checks {app : App} request :
  keeps _permission_checks (AuthTokenView_get request).
Proof. unfold AuthTokenView_get. repeat keep_step. Qed.

Lemma permission_allowed_keeps_root {app : App} a permission resource default :
  keeps _root_token (permission_allowed a permission resource default).
Proof. unfold permission_allowed. repeat keep_step. Qed.

Lemma ensure_permissions_keeps_root {app : App} a permissions :
  keeps _root_token (ensure_permissions a permissions).
Proof.
  induction permissions as [ | p rest IH]; simpl.
  - auto with keep.
  - apply keeps_of_bind; [ apply permission_allowed_keeps_root | intros result ].
    destruct (truthy _); [ exact IH | auto with keep ].
Qed.

Lemma render_keeps_root {app : App} templates request context :
  keeps _root_token (render templates request context).
Proof. exact (keeps_render templates request context). Qed.

#[local] Hint Resolve render_keeps_root ensure_permissions_keeps_root : keep.

Lemma LogoutView_get_keeps_root {app : App} request :
  keeps _root_token (LogoutView_get request).
Proof. unfold LogoutView_get. repeat keep_step. Qed.

Lemma ApiExplorerView_get_keeps_root {app : App} request :
  keeps _root_token (ApiExplorerView_get request).
Proof. unfold ApiExplorerView_get. repeat keep_step. Qed.

(** A view that renders last, if it renders: it leaves the part [f] of
    the instance as it was, or it is the rendering of a page for the
    request on an instance with this part as it was. *)
Lemma renders_last_ret {app : App} {B : Type} (f : Datasette -> B) request r :
  renders_last f request (ret r).
Proof. intro ds. left. reflexivity. Qed.

Lemma renders_last_raise {app : App} {B : Type} (f : Datasette -> B) request e :
  renders_last f request (raise e).
Proof. intro ds. left. reflexivity. Qed.

Lemma renders_last_render {app : App} {B : Type} (f : Datasette -> B) request
    templates context :
  renders_last f request (render templates request context).
Proof.
  intro ds. right. exists templates, context, ds. split; reflexivity.
Qed.

Lemma renders_last_bind {app : App} {A B : Type} (f : Datasette -> B) request
    (m : M A) (k : A -> M Response) :
  keeps f m ->
  (forall a, renders_last f request (k a)) ->
  renders_last f request (bind m k).
Proof.
  intros Hm Hk ds. unfold bind. specialize (Hm ds).
  destruct (m ds) as [[a | e] ds1]; simpl in *.
  - destruct (Hk a ds1) as [Hkeep | [templates [context [ds2 [Hf Hrun]]]]].
    + left. rewrite Hkeep. exact Hm.
    + right. exists templates, context, ds2. split; [ | exact Hrun ].
      rewrite Hf. exact Hm.
  - left. exact Hm.
Qed.

Ltac last_step :=
  match goal with
  | |- renders_last _ _ (bind _ _) => apply renders_last_bind; [ | intros ? ]
  | |- renders_last _ _ (render _ _ _) => apply renders_last_render
  | |- renders_last _ _ (ret _) => apply renders_last_ret
  | |- renders_last _ _ (raise _) => apply renders_last_raise
  | |- renders_last _ _ (if ?b then _ else _) => destruct b
  | |- renders_last _ _ (match ?x with _ => _ end) => destruct x
  | |- keeps _ _ => repeat keep_step
  end.

Lemma CreateTokenView_get_renders_last {app : App} {B : Type}
    (f : Datasette -> B) request :
  renders_last f request (CreateTokenView_get request).
Proof. unfold CreateTokenView_get. repeat last_step. Qed.

Lemma CreateTokenView_post_renders_last {rt : Runtime} {app : App} {B : Type}
    (f : Datasette -> B) request :
  renders_last f request (CreateTokenView_post request).
Proof. unfold CreateTokenView_post. repeat last_step. Qed.

Lemma LogoutView_get_renders_last {app : App} {B : Type}
    (f : Datasette -> B) request :
  renders_last f request (LogoutView_get request).
Proof. unfold LogoutView_get. repeat last_step. Qed.

Lemma ApiExplorerView_get_renders_last {app : App} {B : Type}
    (f : Datasette -> B) request :
  renders_last f request (ApiExplorerView_get request).
Proof. unfold ApiExplorerView_get. repeat last_step. Qed.

Lemma AllowDebugView_get_renders_last {rt : Runtime} {app : App} request :
  renders_last _permission_checks request (AllowDebugView_get request).
Proof.
  unfold AllowDebugView_get, call_matcher. repeat last_step.
Qed.

(** ** AuthTokenView, further *)

(** The run of the view on a live secret and an ASCII value. *)
Lemma AuthTokenView_get_live {app : App} (request : Request) (ds : Datasette)
    (secret : string) :
  _root_token ds = Some secret ->
  str_truthy secret = true ->
  isascii secret = true ->
  isascii (presented_token request) = true ->
  AuthTokenView_get request ds =
    if presented_token request =? secret then
      (Return (Redirect urls_instance
                 [("ds_actor", sign root_cookie_payload "actor")]),
       set_root_token None ds)
    else (Raise (Forbidden "Invalid token"), ds).
Proof.
  intros Hroot Hlive Hascii Htoken.
  unfold AuthTokenView_get, bind, gets. rewrite Hroot, Hlive. simpl.
  unfold compare_digest. rewrite Htoken, Hascii. simpl.
  destruct (presented_token request =? secret); reflexivity.
Qed.

(** X1: the view answers with a response exactly when the root token is
    a non-empty ASCII string and the value presented is that string; in
    every other case it raises. *)
Theorem auth_token_succeeds_iff {app : App} (request : Request) (ds : Datasette) :
  (exists response ds', AuthTokenView_get request ds = (Return response, ds')) <->
  (exists secret,
      _root_token ds = Some secret /\
      str_truthy secret = true /\
      isascii secret = true /\
      presented_token request = secret).
Proof.
  split.
  - intros [response [ds' Hrun]].
    unfold AuthTokenView_get, bind, gets in Hrun.
    destruct (_root_token ds) as [secret | ] eqn:Hroot; [ | discriminate Hrun ].
    destruct (str_truthy secret) eqn:Hlive; simpl in Hrun; [ | discriminate Hrun ].
    unfold compare_digest in Hrun.
    destruct (isascii (presented_token request)) eqn:Htoken; simpl in Hrun;
      [ | discriminate Hrun ].
    destruct (isascii secret) eqn:Hascii; simpl in Hrun; [ | discriminate Hrun ].
    destruct (presented_token request =? secret) eqn:Hsame; simpl in Hrun;
      [ | discriminate Hrun ].
    apply String.eqb_eq in Hsame.
    exists secret. repeat split; assumption || reflexivity.
  - intros [secret [Hroot [Hlive [Hascii Hsame]]]].
    assert (Htoken : isascii (presented_token request) = true)
      by (rewrite Hsame; exact Hascii).
    rewrite (AuthTokenView_get_live request ds secret Hroot Hlive Hascii Htoken).
    rewrite Hsame, String.eqb_refl. eexists. eexists. reflexivity.
Qed.

Lemma auth_token_succeeds_iff_witness :
  exists response ds',
    AuthTokenView_get (app := sample_app) sample_request sample_ds =
      (Return response, ds').
Proof.
  apply (@auth_token_succeeds_iff sample_app sample_request sample_ds).
  exists sample_secret. repeat split; reflexivity.
Defined.

(** X2: wrong guesses do not use the secret up.  However many wrong ASCII
    values are presented, each is refused with "Invalid token", the
    secret is still the root token afterwards, and presenting it then is
    answered with the cookie of the root actor. *)
Theorem wrong_guesses_keep_the_secret {rt : Runtime} {app : App}
    (wrongs : list (Q * Request)) (ds : Datasette) (secret : string) :
  _root_token ds = Some secret ->
  str_truthy secret = true ->
  isascii secret = true ->
  Forall (fun guess =>
            isascii (presented_token (snd guess)) = true /\
            (presented_token (snd guess) =? secret) = false) wrongs ->
  let served :=
    serve (map (fun guess => (fst guess, GET_auth_token (snd guess))) wrongs) ds in
  Forall (fun answer => snd answer = Raise (Forbidden "Invalid token")) (fst served) /\
  _root_token (snd served) = Some secret /\
  forall request,
    presented_token request = secret ->
    AuthTokenView_get request (snd served) =
      (Return (Redirect urls_instance
                 [("ds_actor", sign root_cookie_payload "actor")]),
       set_root_token None (snd served)).
Proof.
  intros Hroot Hlive Hascii Hwrongs. cbv zeta.
  assert (Hserved :
    Forall (fun answer => snd answer = Raise (Forbidden "Invalid token"))
      (fst (serve (map (fun guess => (fst guess, GET_auth_token (snd guess)))
                     wrongs) ds)) /\
    _root_token
      (snd (serve (map (fun guess => (fst guess, GET_auth_token (snd guess)))
                     wrongs) ds)) = Some secret).
  { revert ds Hroot. induction Hwrongs as [ | [now guess] rest [Hg1 Hg2] _ IH];
      intros ds Hroot.
    - split; [ constructor | exact Hroot ].
    - simpl in *.
      assert (Hset : _root_token (set_time now ds) = Some secret) by exact Hroot.
      rewrite (AuthTokenView_get_live guess _ secret Hset Hlive Hascii Hg1), Hg2.
      specialize (IH _ Hset).
      destruct (serve _ (set_time now ds)) as [answers ds2].
      simpl in *. destruct IH as [IH1 IH2].
      split; [ constructor; [ reflexivity | exact IH1 ] | exact IH2 ]. }
  destruct Hserved as [Hall Hkept]. split; [ exact Hall | split; [ exact Hkept | ] ].
  intros request Hsame.
  assert (Htoken : isascii (presented_token request) = true)
    by (rewrite Hsame; exact Hascii).
  rewrite (AuthTokenView_get_live request _ secret Hkept Hlive Hascii Htoken).
  rewrite Hsame, String.eqb_refl. reflexivity.
Qed.

Lemma wrong_guesses_keep_the_secret_witness :
  _root_token
    (snd (serve (rt := sample_runtime) (app := sample_app)
            [(1%Q, GET_auth_token wrong_request);
             (2%Q, GET_auth_token wrong_request)] sample_ds)) =
    Some sample_secret.
Proof.
  apply (@wrong_guesses_keep_the_secret sample_runtime sample_app
           [(1%Q, wrong_request); (2%Q, wrong_request)] sample_ds sample_secret);
    try reflexivity.
  repeat constructor.
Defined.

(** X3: a value with a non-ASCII character, presented while the secret
    is live, is not refused with [Forbidden]: [compare_digest] raises
    [TypeError]; the secret stays as it is. *)
Theorem non_ascii_token_raises_type_error {app : App}
    (request : Request) (ds : Datasette) (secret : string) :
  _root_token ds = Some secret ->
  str_truthy secret = true ->
  isascii (presented_token request) = false ->
  AuthTokenView_get request ds =
    (Raise (TypeError "comparing strings with non-ASCII characters is not supported"),
     ds).
Proof.
  intros Hroot Hlive Htoken.
  unfold AuthTokenView_get, bind, gets. rewrite Hroot, Hlive. simpl.
  unfold compare_digest. rewrite Htoken. reflexivity.
Qed.

Lemma non_ascii_token_raises_type_error_witness :
  AuthTokenView_get (app := sample_app) non_ascii_request sample_ds =
    (Raise (TypeError "comparing strings with non-ASCII characters is not supported"),
     sample_ds).
Proof.
  apply (@non_ascii_token_raises_type_error sample_app non_ascii_request
           sample_ds sample_secret);
    reflexivity.
Defined.

(** ** CreateTokenView, further *)

(** X4: [check_permission] lets a request through exactly when the
    setting [allow_signed_tokens] is true and the actor is a dict with a
    true [id] and no true [token]; every other request is refused with
    [Forbidden], never with another exception, and the instance is not
    written. *)
Theorem check_permission_passes_iff {app : App} (request : Request) (ds : Datasette) :
  (check_permission request ds = (Return tt, ds) <->
   truthy (setting "allow_signed_tokens") = true /\
   exists a, actor request = Some a /\
             opt_truthy (dict_get a "id") = true /\
             opt_truthy (dict_get a "token") = false) /\
  (check_permission request ds = (Return tt, ds) \/
   exists message, check_permission request ds = (Raise (Forbidden message), ds)).
Proof.
  unfold check_permission.
  destruct (truthy (setting "allow_signed_tokens")); simpl.
  - destruct (actor request) as [a | ]; simpl.
    + destruct (is_empty a) eqn:Hempty; simpl.
      * destruct a; [ | discriminate Hempty ].
        split; [ split | right; eexists; reflexivity ].
        { discriminate. }
        { intros [_ [b [Hb [Hid _]]]]. inversion Hb; subst b. discriminate Hid. }
      * destruct (opt_truthy (dict_get a "id")) eqn:Hid; simpl.
        { destruct (opt_truthy (dict_get a "token")) eqn:Htoken; simpl.
          - split; [ split | right; eexists; reflexivity ].
            + discriminate.
            + intros [_ [b [Hb [_ Hno]]]]. inversion Hb; subst b.
              rewrite Htoken in Hno. discriminate Hno.
          - split; [ split | left; reflexivity ].
            + intros _. split; [ reflexivity | ].
              exists a. repeat split; assumption.
            + intros _. reflexivity. }
        { split; [ split | right; eexists; reflexivity ].
          - discriminate.
          - intros [_ [b [Hb [Hyes _]]]]. inversion Hb; subst b.
            rewrite Hid in Hyes. discriminate Hyes. }
    + split; [ split | right; eexists; reflexivity ].
      * discriminate.
      * intros [_ [b [Hb _]]]. discriminate Hb.
  - split; [ split | right; eexists; reflexivity ].
    + discriminate.
    + intros [Hoff _]. discriminate Hoff.
Qed.

Lemma check_permission_passes_iff_witness :
  check_permission (app := sample_app) (expiry_request "hours" "2") sample_ds =
    (Return tt, sample_ds).
Proof.
  apply (@check_permission_passes_iff sample_app (expiry_request "hours" "2")
           sample_ds).
  split; [ reflexivity | ].
  exists [("id", PStr "alice")]. repeat split; reflexivity.
Defined.

(** X5: the token creation view itself writes nothing: whatever the
    request, [get] and [post] either end with the whole instance as it
    was (they raise), or hand their page to the renderer on the instance
    exactly as it was; a token that was issued is kept nowhere.  What is
    written during a request is written by the renderer. *)
Theorem create_token_writes_nothing {rt : Runtime} {app : App}
    (request : Request) (ds : Datasette) :
  (snd (CreateTokenView_get request ds) = ds \/
   exists templates context,
     CreateTokenView_get request ds = render templates request context ds) /\
  (snd (CreateTokenView_post request ds) = ds \/
   exists templates context,
     CreateTokenView_post request ds = render templates request context ds).
Proof.
  split.
  - destruct (CreateTokenView_get_renders_last (fun d => d) request ds)
      as [H | [templates [context [ds1 [Hsame Hrun]]]]].
    + left. exact H.
    + right. exists templates, context. rewrite Hrun, Hsame. reflexivity.
  - destruct (CreateTokenView_post_renders_last (fun d => d) request ds)
      as [H | [templates [context [ds1 [Hsame Hrun]]]]].
    + left. exact H.
    + right. exists templates, context. rewrite Hrun, Hsame. reflexivity.
Qed.

(** What [parse_expiry] can return. *)
Lemma parse_expiry_outcomes {rt : Runtime} (post : list (string * string))
    (ds ds1 : Datasette) (errors : list string) (duration : option Z) :
  parse_expiry post ds = (Return (errors, duration), ds1) ->
  errors = [] \/
  (duration = None /\
   (errors = ["Invalid expire duration"] \/
    errors = ["Invalid expire duration unit"])).
Proof.
  unfold parse_expiry, bind, lift, ret.
  destruct (opt_str_truthy (dict_get post "expire_type"));
    [ | intros H; inversion H; left; reflexivity ].
  destruct (invalid_duration (dict_get post "expire_duration")) as [e | invalid];
    simpl; [ intros H; inversion H | ].
  destruct invalid;
    [ intros H; inversion H; right; split; [ | left ]; reflexivity | ].
  destruct (dict_item post "expire_type") as [e | unit]; simpl;
    [ intros H; inversion H | ].
  destruct (unit =? "minutes");
    [ destruct (int_of (dict_get post "expire_duration")); simpl; intros H;
      inversion H; left; reflexivity | ].
  destruct (unit =? "hours");
    [ destruct (int_of (dict_get post "expire_duration")); simpl; intros H;
      inversion H; left; reflexivity | ].
  destruct (unit =? "days");
    [ destruct (int_of (dict_get post "expire_duration")); simpl; intros H;
      inversion H; left; reflexivity | ].
  intros H; inversion H. right. split; [ | right ]; reflexivity.
Qed.

(** X6: a page that [post] renders shows either a token or an error,
    never both and never neither: with no error, the token begins with
    ["dstok_"] and is the signature of the payload shown beside it; with
    an error, there is one message, one of the two of the view, and token
    and payload are [None]. *)
Theorem token_or_one_error {rt : Runtime} {app : App}
    (request : Request) (ds ds' : Datasette) (response : Response) :
  CreateTokenView_post request ds = (Return response, ds') ->
  exists (errors : list string) (token token_bits : pyval),
    response =
      Render ["create_token.html"] request
        [("actor", actor_value (actor request));
         ("errors", PList (map PStr errors));
         ("token", token);
         ("token_bits", token_bits)] /\
    ((errors = [] /\
      exists payload,
        token = PStr ("dstok_" ++ sign (PDict payload) "token") /\
        token_bits = PDict payload) \/
     ((errors = ["Invalid expire duration"] \/
       errors = ["Invalid expire duration unit"]) /\
      token = PNone /\ token_bits = PNone)).
Proof.
  unfold CreateTokenView_post, bind at 1.
  destruct (check_permission request ds) as [[[] | e] ds0];
    [ | intros H; inversion H ].
  unfold bind at 1.
  destruct (parse_expiry (post_vars request) ds0)
    as [[[errors duration] | e] ds1] eqn:Hparse; [ | intros H; inversion H ].
  apply parse_expiry_outcomes in Hparse.
  destruct Hparse as [Hnone | [Hduration Hone]].
  - subst errors. simpl. unfold bind, lift, gets, ret.
    destruct (actor_item (actor request) "id") as [e | id]; simpl;
      [ intros H; inversion H | ].
    rewrite render_run. intros H. inversion H; subst response ds'; clear H.
    eexists [], _, _. split; [ reflexivity | ].
    left. split; [ reflexivity | ]. eexists. split; reflexivity.
  - assert (Hempty : is_empty errors = false)
      by (destruct Hone; subst errors; reflexivity).
    rewrite Hempty. unfold bind, ret. rewrite render_run. intros H.
    inversion H; subst response ds'; clear H.
    exists errors, PNone, PNone. split; [ reflexivity | ].
    right. repeat split. exact Hone.
Qed.

Lemma token_or_one_error_witness :
  exists (errors : list string) (token token_bits : pyval),
    two_hours_page =
      Render ["create_token.html"] (expiry_request "hours" "2")
        [("actor", actor_value (actor (expiry_request "hours" "2")));
         ("errors", PList (map PStr errors));
         ("token", token);
         ("token_bits", token_bits)] /\
    ((errors = [] /\
      exists payload,
        token = PStr ("dstok_" ++ sign (App := sample_app) (PDict payload) "token") /\
        token_bits = PDict payload) \/
     ((errors = ["Invalid expire duration"] \/
       errors = ["Invalid expire duration unit"]) /\
      token = PNone /\ token_bits = PNone)).
Proof.
  apply (@token_or_one_error sample_runtime sample_app
           (expiry_request "hours" "2") sample_ds
           (snd (CreateTokenView_post (rt := sample_runtime) (app := sample_app)
                   (expiry_request "hours" "2") sample_ds))
           two_hours_page).
  reflexivity.
Defined.

Lemma token_issued_without_expiry_witness :
  exists id,
    actor_item (actor (expiry_request "" "soon")) "id" = inr id /\
    let payload :=
      PDict [("a", id); ("t", PInt (int_of_float (time_time sample_ds)))] in
    CreateTokenView_post (rt := sample_runtime) (app := sample_app)
      (expiry_request "" "soon") sample_ds =
      render (app := sample_app) ["create_token.html"] (expiry_request "" "soon")
        [("actor", actor_value (actor (expiry_request "" "soon")));
         ("errors", PList []);
         ("token", PStr ("dstok_" ++ sign (App := sample_app) payload "token"));
         ("token_bits", payload)] sample_ds.
Proof.
  apply (@token_issued_without_expiry sample_runtime sample_app
           (expiry_request "" "soon") sample_ds);
    reflexivity.
Defined.

Lemma token_issued_with_expiry_witness :
  exists id,
    actor_item (actor (expiry_request "days" "007")) "id" = inr id /\
    let payload :=
      PDict [("a", id); ("t", PInt (int_of_float (time_time sample_ds)));
             ("d", PInt (decimal_value 0 "007" * 86400))] in
    CreateTokenView_post (rt := sample_runtime) (app := sample_app)
      (expiry_request "days" "007") sample_ds =
      render (app := sample_app) ["create_token.html"] (expiry_request "days" "007")
        [("actor", actor_value (actor (expiry_request "days" "007")));
         ("errors", PList []);
         ("token", PStr ("dstok_" ++ sign (App := sample_app) payload "token"));
         ("token_bits", payload)] sample_ds.
Proof.
  apply (@token_issued_with_expiry sample_runtime sample_app
           (expiry_request "days" "007") sample_ds "days" "007" 86400%Z);
    try reflexivity.
  right. right. split; reflexivity.
Defined.

Lemma invalid_expiry_reported_witness :
  exists errors,
    errors <> [] /\
    CreateTokenView_post (rt := sample_runtime) (app := sample_app)
      (expiry_request "hours" "0") sample_ds =
      render (app := sample_app) ["create_token.html"] (expiry_request "hours" "0")
        [("actor", actor_value (actor (expiry_request "hours" "0")));
         ("errors", PList (map PStr errors));
         ("token", PNone);
         ("token_bits", PNone)] sample_ds.
Proof.
  apply (@invalid_expiry_reported sample_runtime sample_app
           (expiry_request "hours" "0") sample_ds "hours");
    try reflexivity.
  right. right. left. exists "0", 0%Z. repeat split; reflexivity || lia.
Defined.

(** ** AllowDebugView, further *)

(** X10: the allow debug tool makes no permission check of its own and
    looks at nothing of the request but its query string: two requests
    with the same query string, whoever sends them, either raise the
    same exception or hand the same context to the renderer, each for
    its request, on the same instance, whose log of permission checks
    and root token are as they were. *)
Theorem allow_debug_is_open {rt : Runtime} {app : App}
    (request other : Request) (ds : Datasette) :
  args other = args request ->
  (exists e ds1,
      AllowDebugView_get request ds = (Raise e, ds1) /\
      AllowDebugView_get other ds = (Raise e, ds1)) \/
  (exists context ds1,
      AllowDebugView_get request ds =
        render ["allow_debug.html"] request context ds1 /\
      AllowDebugView_get other ds =
        render ["allow_debug.html"] other context ds1 /\
      _permission_checks ds1 = _permission_checks ds /\
      _root_token ds1 = _root_token ds).
Proof.
  intros Hargs. unfold AllowDebugView_get, bind, lift, ret, raise.
  rewrite Hargs.
  destruct (parse_input "Actor" _ []) as [e | [[parsed_actor actor_input] errors]];
    [ left; eexists; eexists; split; reflexivity | ].
  destruct (parse_input "Allow" _ errors)
    as [e | [[parsed_allow allow_input] errors2]];
    [ left; eexists; eexists; split; reflexivity | ].
  destruct (is_empty errors2);
    [ | right; eexists; eexists; repeat split; reflexivity ].
  unfold local, call_matcher, bind, modify, lift, ret, raise.
  destruct parsed_actor as [a | ];
    [ | left; eexists; eexists; split; reflexivity ].
  destruct parsed_allow as [r | ];
    [ | left; eexists; eexists; split; reflexivity ].
  destruct (actor_matches_allow a r) as [e | b];
    [ left; eexists; eexists; split; reflexivity | ].
  right; eexists; eexists; repeat split; reflexivity.
Qed.

Lemma allow_debug_is_open_witness :
  (exists e ds1,
      AllowDebugView_get (rt := sample_runtime) (app := sample_app)
        anonymous_request sample_ds = (Raise e, ds1) /\
      AllowDebugView_get (rt := sample_runtime) (app := sample_app)
        missing_field_request sample_ds = (Raise e, ds1)) \/
  (exists context ds1,
      AllowDebugView_get (rt := sample_runtime) (app := sample_app)
        anonymous_request sample_ds =
        render (app := sample_app) ["allow_debug.html"] anonymous_request
          context ds1 /\
      AllowDebugView_get (rt := sample_runtime) (app := sample_app)
        missing_field_request sample_ds =
        render (app := sample_app) ["allow_debug.html"] missing_field_request
          context ds1 /\
      _permission_checks ds1 = _permission_checks sample_ds /\
      _root_token ds1 = _root_token sample_ds).
Proof.
  apply (@allow_debug_is_open sample_runtime sample_app
           anonymous_request missing_field_request sample_ds).
  reflexivity.
Defined.

(** ** PermissionsDebugView, further *)

(** X11: an actor who passes the check of [view-instance] and is refused
    [permissions-debug] gets [Forbidden] from [get] and from [post]
    alike; [post] refuses before it reads the form, so the check that
    was submitted is not evaluated: the log has the two checks of the
    view and no more. *)
Theorem permissions_debug_denied {rt : Runtime} {app : App}
    (request : Request) (ds : Datasette) :
  let a := actor_value (actor request) in
  let gate1 := check_record a "view-instance" [] PNone in
  let gate2 := check_record a "permissions-debug" [] omitted_default in
  let logged :=
    ring_append maxlen (ring_append maxlen (_permission_checks ds) gate1) gate2 in
  truthy (resolve "view-instance" (pc_result gate1)) = true ->
  truthy (pc_result gate2) = false ->
  PermissionsDebugView_get request ds =
    (Raise (Forbidden "Permission denied"), set_permission_checks logged ds) /\
  PermissionsDebugView_post request ds =
    (Raise (Forbidden "Permission denied"), set_permission_checks logged ds).
Proof.
  cbv zeta. intros Hfirst Hsecond.
  unfold PermissionsDebugView_get, PermissionsDebugView_post, bind.
  rewrite (ensure_permission_run _ "view-instance" ds Hfirst).
  rewrite permission_allowed_run, Hsecond. split; reflexivity.
Qed.

Lemma permissions_debug_denied_witness :
  PermissionsDebugView_post (rt := sample_runtime) (app := sample_app)
    (expiry_request "" "") sample_ds =
    (Raise (Forbidden "Permission denied"),
     set_permission_checks
       [mkCheck (PDict [("id", PStr "alice")]) "view-instance" [] true PNone;
        mkCheck (PDict [("id", PStr "alice")]) "permissions-debug" [] true
          (PBool false)]
       sample_ds).
Proof.
  apply (@permissions_debug_denied sample_runtime sample_app
           (expiry_request "" "") sample_ds);
    reflexivity.
Defined.

(** X12: [post] does not collect a JSON error as the allow debug tool
    does: an actor field that does not parse makes the view raise the
    [JSONDecodeError], and the check that was submitted is not
    evaluated. *)
Theorem permissions_debug_post_bad_json {rt : Runtime} {app : App}
    (request : Request) (ds : Datasette) (actor_text message : string) :
  let a := actor_value (actor request) in
  let gate1 := check_record a "view-instance" [] PNone in
  let gate2 := check_record a "permissions-debug" [] omitted_default in
  let logged :=
    ring_append maxlen (ring_append maxlen (_permission_checks ds) gate1) gate2 in
  truthy (resolve "view-instance" (pc_result gate1)) = true ->
  truthy (pc_result gate2) = true ->
  dict_get (post_vars request) "actor" = Some actor_text ->
  json_loads actor_text = inl (JSONDecodeError message) ->
  PermissionsDebugView_post request ds =
    (Raise (JSONDecodeError message), set_permission_checks logged ds).
Proof.
  cbv zeta. intros Hfirst Hsecond Hactor Hloads.
  unfold PermissionsDebugView_post, bind.
  rewrite (ensure_permission_run _ "view-instance" ds Hfirst).
  rewrite permission_allowed_run, Hsecond. unfold dict_item, lift, ret.
  cbv beta iota. rewrite Hactor. cbv beta iota. rewrite Hloads. reflexivity.
Qed.

Lemma permissions_debug_post_bad_json_witness :
  PermissionsDebugView_post (rt := sample_runtime) (app := sample_app)
    bad_json_request sample_ds =
    (Raise (JSONDecodeError "Expecting value: line 1 column 1 (char 0)"),
     set_permission_checks
       [mkCheck (PDict [("id", PStr "root")]) "view-instance" [] false (PBool true);
        mkCheck (PDict [("id", PStr "root")]) "permissions-debug" [] false
          (PBool true)]
       sample_ds).
Proof.
  apply (@permissions_debug_post_bad_json sample_runtime sample_app
           bad_json_request sample_ds "{"
           "Expecting value: line 1 column 1 (char 0)");
    reflexivity.
Defined.

(** X13: a form that lacks one of the fields [actor], [permission],
    [resource_1], [resource_2] makes [post] raise: a [KeyError] for a
    field that is missing, unless the actor field is there and
    [json.loads] raises on it, which comes first; the check that was
    submitted is not evaluated. *)
Theorem permissions_debug_post_missing_field {rt : Runtime} {app : App}
    (request : Request) (ds : Datasette) (field : string) :
  let a := actor_value (actor request) in
  let gate1 := check_record a "view-instance" [] PNone in
  let gate2 := check_record a "permissions-debug" [] omitted_default in
  let logged :=
    ring_append maxlen (ring_append maxlen (_permission_checks ds) gate1) gate2 in
  truthy (resolve "view-instance" (pc_result gate1)) = true ->
  truthy (pc_result gate2) = true ->
  In field ["actor"; "permission"; "resource_1"; "resource_2"] ->
  dict_get (post_vars request) field = None ->
  exists e,
    PermissionsDebugView_post request ds =
      (Raise e, set_permission_checks logged ds) /\
    ((exists key, e = KeyError key /\ dict_get (post_vars request) key = None) \/
     (exists actor_text,
         dict_get (post_vars request) "actor" = Some actor_text /\
         json_loads actor_text = inl e)).
Proof.
  cbv zeta. intros Hfirst Hsecond Hfield Hmissing.
  unfold PermissionsDebugView_post, bind.
  rewrite (ensure_permission_run _ "view-instance" ds Hfirst).
  rewrite permission_allowed_run, Hsecond. unfold dict_item, lift, ret, raise.
  cbv beta iota.
  destruct (dict_get (post_vars request) "actor") as [actor_text | ] eqn:Hactor;
    [ | eexists; split; [ reflexivity | left; eexists; split; [ reflexivity | exact Hactor ] ] ].
  cbv beta iota.
  destruct (json_loads actor_text) as [e | checked] eqn:Hloads;
    [ exists e; split; [ reflexivity | right; exists actor_text; split;
                                         [ reflexivity | exact Hloads ] ] | ].
  cbv beta iota.
  destruct (dict_get (post_vars request) "permission") as [permission | ] eqn:Hperm;
    [ | eexists; split; [ reflexivity | left; eexists; split; [ reflexivity | exact Hperm ] ] ].
  cbv beta iota.
  destruct (dict_get (post_vars request) "resource_1") as [r1 | ] eqn:Hr1;
    [ | eexists; split; [ reflexivity | left; eexists; split; [ reflexivity | exact Hr1 ] ] ].
  cbv beta iota.
  destruct (dict_get (post_vars request) "resource_2") as [r2 | ] eqn:Hr2;
    [ | eexists; split; [ reflexivity | left; eexists; split; [ reflexivity | exact Hr2 ] ] ].
  exfalso. simpl in Hfield.
  destruct Hfield as [H | [H | [H | [H | []]]]]; subst field; congruence.
Qed.

Lemma permissions_debug_post_missing_field_witness :
  exists e,
    PermissionsDebugView_post (rt := sample_runtime) (app := sample_app)
      missing_field_request sample_ds =
      (Raise e,
       set_permission_checks
         [mkCheck (PDict [("id", PStr "root")]) "view-instance" [] false (PBool true);
          mkCheck (PDict [("id", PStr "root")]) "permissions-debug" [] false
            (PBool true)]
         sample_ds) /\
    ((exists key, e = KeyError key /\
                  dict_get (post_vars missing_field_request) key = None) \/
     (exists actor_text,
         dict_get (post_vars missing_field_request) "actor" = Some actor_text /\
         json_loads (Runtime := sample_runtime) actor_text = inl e)).
Proof.
  apply (@permissions_debug_post_missing_field sample_runtime sample_app
           missing_field_request sample_ds "resource_1");
    try reflexivity.
  simpl. tauto.
Defined.

(** ** The views over a site *)

Lemma ensure_permission_cases {app : App} (a : pyval) (permission : string)
    (ds : Datasette) :
  ensure_permissions a [permission] ds =
    (if truthy (resolve permission
                  (pc_result (check_record a permission [] PNone)))
     then Return tt else Raise (Forbidden permission),
     set_permission_checks
       (ring_append maxlen (_permission_checks ds)
          (check_record a permission [] PNone)) ds).
Proof.
  unfold ensure_permissions, bind. rewrite permission_allowed_run.
  destruct (truthy _); reflexivity.
Qed.

(** A view of the first kind, served on a site: its outcome, and its
    instance in the place of the old one. *)
Lemma page_run (m : M Response) (s : Site) :
  page m s =
    (match fst (m (instance s)) with
     | Return r => Done (Plain r)
     | Raise e => Failed (PyExn e)
     end,
     set_instance (snd (m (instance s))) s).
Proof.
  unfold page, vbind, run, vret.
  destruct (m (instance s)) as [[r | e] ds]; reflexivity.
Qed.

Lemma vkeeps_ret {A B : Type} (f : Site -> B) (a : A) : vkeeps f (vret a).
Proof. intro s. reflexivity. Qed.

Lemma vkeeps_fail {A B : Type} (f : Site -> B) (e : error) : vkeeps f (@vfail A e).
Proof. intro s. reflexivity. Qed.

Lemma vkeeps_lift {A B : Type} (f : Site -> B) (r : exn + A) : vkeeps f (vlift r).
Proof. destruct r; intro s; reflexivity. Qed.

Lemma vkeeps_bind {A B C : Type} (f : Site -> C) (m : V A) (k : A -> V B) :
  vkeeps f m -> (forall a, vkeeps f (k a)) -> vkeeps f (vbind m k).
Proof.
  intros Hm Hk s. unfold vbind. specialize (Hm s).
  destruct (m s) as [[a | e] s1]; simpl in *.
  - rewrite Hk. exact Hm.
  - exact Hm.
Qed.

Lemma vkeeps_run_instance {A B : Type} (h : Datasette -> B) (m : M A) :
  keeps h m -> vkeeps (fun s => h (instance s)) (run m).
Proof.
  intros Hm s. unfold run. specialize (Hm (instance s)).
  destruct (m (instance s)) as [[a | e] ds]; exact Hm.
Qed.

Lemma vkeeps_run_messages {A : Type} (m : M A) : vkeeps added_messages (run m).
Proof.
  intros s. unfold run. destruct (m (instance s)) as [[a | e] ds]; reflexivity.
Qed.

Lemma vkeeps_run_callbacks {A : Type} (m : M A) : vkeeps callback_calls (run m).
Proof.
  intros s. unfold run. destruct (m (instance s)) as [[a | e] ds]; reflexivity.
Qed.

Lemma vkeeps_add_message_instance {B : Type} (h : Datasette -> B) message type :
  vkeeps (fun s => h (instance s)) (add_message message type).
Proof. intro s. reflexivity. Qed.

Lemma vkeeps_callback_instance {B : Type} (h : Datasette -> B) self argument :
  vkeeps (fun s => h (instance s)) (call_data_callback self argument).
Proof.
  intro s. unfold call_data_callback.
  destruct (data_callback self argument); reflexivity.
Qed.

Lemma vkeeps_page_instance {B : Type} (h : Datasette -> B) (m : M Response) :
  keeps h m -> vkeeps (fun s => h (instance s)) (page m).
Proof.
  intros Hm. unfold page. apply vkeeps_bind.
  - apply vkeeps_run_instance. exact Hm.
  - intros r. apply vkeeps_ret.
Qed.

Create HintDb vkeep.

#[local] Hint Resolve vkeeps_ret vkeeps_fail vkeeps_lift vkeeps_run_messages
  vkeeps_run_callbacks vkeeps_add_message_instance vkeeps_callback_instance : vkeep.

Ltac vkeep_step :=
  match goal with
  | |- vkeeps _ (vbind _ _) => apply vkeeps_bind; [ | intros ? ]
  | |- vkeeps _ (run _) => apply vkeeps_run_instance
  | |- vkeeps _ (page _) => apply vkeeps_page_instance
  | |- vkeeps _ (if ?b then _ else _) => destruct b
  | |- vkeeps _ (match ?x with _ => _ end) => destruct x
  | |- vkeeps _ _ => solve [ auto with vkeep ]
  end.

Lemma JsonDataView_get_keeps_root {rt : Runtime} {app : App} {pres : Presentation}
    self url_vars request :
  vkeeps (fun s => _root_token (instance s)) (JsonDataView_get self url_vars request).
Proof.
  unfold JsonDataView_get. repeat vkeep_step;
    solve [ apply ensure_permissions_keeps_root | apply render_keeps_root ].
Qed.

Lemma MessagesDebugView_post_keeps_root {app : App} {pres : Presentation} request :
  vkeeps (fun s => _root_token (instance s)) (MessagesDebugView_post request).
Proof.
  unfold MessagesDebugView_post. repeat vkeep_step.
  apply ensure_permissions_keeps_root.
Qed.

Lemma LogoutView_post_instance {app : App} {pres : Presentation} request s :
  instance (snd (LogoutView_post request s)) = instance s.
Proof. reflexivity. Qed.

(** Only [AuthTokenView] writes the root token, and it writes [None]. *)
Lemma dispatch_root_token {rt : Runtime} {app : App} {pres : Presentation}
    (route : Route) (request : Request) (s : Site) :
  _root_token (instance (snd (dispatch route request s))) = _root_token (instance s) \/
  (route = auth_token /\
   _root_token (instance (snd (dispatch route request s))) = None).
Proof.
  destruct route; simpl; try rewrite page_run; simpl.
  - left. apply (JsonDataView_get_keeps_root self url_vars request s).
  - left. unfold PatternPortfolioView_get.
    apply (keeps_of_bind _root_token);
      [ apply ensure_permissions_keeps_root | intros; auto with keep ].
  - unfold AuthTokenView_get, bind, gets.
    destruct (_root_token (instance s)) as [secret | ] eqn:Hroot;
      [ | left; simpl; exact Hroot ].
    destruct (str_truthy secret); simpl; [ | left; exact Hroot ].
    destruct (compare_digest (presented_token request) secret) as [e | same];
      simpl; [ left; exact Hroot | ].
    destruct same; simpl; [ right; split; reflexivity | left; exact Hroot ].
  - left. apply LogoutView_get_keeps_root.
  - left. reflexivity.
  - left. apply keeps_PermissionsDebugView_get.
  - left. apply keeps_PermissionsDebugView_post.
  - left. apply keeps_AllowDebugView_get.
  - left. unfold MessagesDebugView_get.
    apply (keeps_of_bind _root_token);
      [ apply ensure_permissions_keeps_root | intros; auto with keep ].
  - left. apply (MessagesDebugView_post_keeps_root request s).
  - left. apply keeps_CreateTokenView_get.
  - left. apply keeps_CreateTokenView_post.
  - left. apply ApiExplorerView_get_keeps_root.
Qed.

(** ** JsonDataView *)

(** X14: a route without the variable [format] makes the view raise
    [KeyError] before anything else: no permission check is made, the
    data callback is not called, the site is as it was. *)
Theorem json_data_without_format {rt : Runtime} {app : App} {pres : Presentation}
    (self : JsonDataView) (url_vars : list (string * option string))
    (request : Request) (s : Site) :
  dict_get url_vars "format" = None ->
  JsonDataView_get self url_vars request s = (Failed (PyExn (KeyError "format")), s).
Proof.
  intros Hformat. unfold JsonDataView_get, vbind, vlift, dict_item.
  rewrite Hformat. reflexivity.
Qed.

Lemma json_data_without_format_witness :
  JsonDataView_get (rt := sample_runtime) (app := sample_app)
    (pres := sample_presentation) actor_json [] sample_request sample_site =
    (Failed (PyExn (KeyError "format")), sample_site).
Proof.
  apply (@json_data_without_format sample_runtime sample_app sample_presentation
           actor_json [] sample_request sample_site).
  reflexivity.
Defined.

(** X15: for an actor who passes the check of [view-instance], the data
    callback is called once, with the request if the view was built
    with [needs_request] and with nothing otherwise; an exception of the
    callback is the exception of the view; if the route matched a format
    its data are sent as a JSON body, with the CORS headers exactly when
    the instance has [cors], and nothing is rendered; if it did not, the
    page [show_json.html] with the data, indented, and the file name is
    handed to the renderer. *)
Theorem json_data_served {rt : Runtime} {app : App} {pres : Presentation}
    (self : JsonDataView) (url_vars : list (string * option string))
    (request : Request) (s : Site) (as_format : option string) :
  let a := actor_value (actor request) in
  let gate := check_record a "view-instance" [] PNone in
  let argument := if needs_request self then Some request else None in
  let served :=
    mkSite
      (set_permission_checks
         (ring_append maxlen (_permission_checks (instance s)) gate) (instance s))
      (added_messages s)
      (callback_calls s ++ [argument])%list in
  dict_get url_vars "format" = Some as_format ->
  truthy (resolve "view-instance" (pc_result gate)) = true ->
  JsonDataView_get self url_vars request s =
    match data_callback self argument with
    | inl e => (Failed (PyExn e), served)
    | inr data =>
        if opt_str_truthy as_format then
          (Done (Raw (json_dumps_compact data) "application/json; charset=utf-8"
                   (if cors then add_cors_headers [] else [])),
           served)
        else
          page (render ["show_json.html"] request
                  [("filename", PStr (filename self));
                   ("data_json", PStr (json_dumps data))])
            served
    end.
Proof.
  cbv zeta. intros Hformat Hgate.
  unfold JsonDataView_get, vbind, vlift, dict_item, run, vret.
  rewrite Hformat. cbv beta iota.
  rewrite ensure_permission_cases, Hgate. cbv beta iota.
  unfold call_data_callback, set_instance. simpl.
  destruct (needs_request self);
    (destruct (data_callback self _) as [e | data]; [ reflexivity | ]);
    destruct (opt_str_truthy as_format); reflexivity.
Qed.

Lemma json_data_served_witness :
  JsonDataView_get (rt := sample_runtime) (app := sample_app)
    (pres := sample_presentation) actor_json [("format", Some "json")]
    sample_request sample_site =
    (Done (Raw (encode (PDict [("actor", PDict [("id", PStr "root")])]))
             "application/json; charset=utf-8"
             [("Access-Control-Allow-Origin", "*")]),
     mkSite
       (set_permission_checks
          [mkCheck (PDict [("id", PStr "root")]) "view-instance" [] false
             (PBool true)]
          sample_ds)
       [] [Some sample_request]).
Proof.
  apply (@json_data_served sample_runtime sample_app sample_presentation
           actor_json [("format", Some "json")] sample_request sample_site
           (Some "json"));
    reflexivity.
Defined.

(** ** MessagesDebugView *)

(** X16: for an actor who passes the check of [view-instance], [post]
    queues the text of the field [message] (the empty text without the
    field) three times, as INFO, WARNING and ERROR in this order, for
    the type ["all"], once with its level for the types ["INFO"],
    ["WARNING"] and ["ERROR"], INFO being the type of a form without a
    type, and then redirects to the instance; any other type fails the
    assertion, and no message is queued. *)
Theorem messages_debug_post_queues {app : App} {pres : Presentation}
    (request : Request) (s : Site) :
  let a := actor_value (actor request) in
  let gate := check_record a "view-instance" [] PNone in
  let checked :=
    set_permission_checks
      (ring_append maxlen (_permission_checks (instance s)) gate) (instance s) in
  let message :=
    match dict_get (post_vars request) "message" with
    | Some m => m
    | None => ""
    end in
  let message_type := str_or (dict_get (post_vars request) "message_type") "INFO" in
  let queued levels :=
    (Done (Plain (Redirect urls_instance [])),
     mkSite checked
       (added_messages s ++ map (fun level => (message, level)) levels)%list
       (callback_calls s)) in
  truthy (resolve "view-instance" (pc_result gate)) = true ->
  MessagesDebugView_post request s =
    if message_type =? "all" then queued [INFO; WARNING; ERROR]
    else if message_type =? "INFO" then queued [INFO]
    else if message_type =? "WARNING" then queued [WARNING]
    else if message_type =? "ERROR" then queued [ERROR]
    else (Failed AssertionError, set_instance checked s).
Proof.
  cbv zeta. intros Hgate.
  unfold MessagesDebugView_post, vbind, run.
  rewrite ensure_permission_cases, Hgate. cbv beta iota.
  set (message_type := str_or (dict_get (post_vars request) "message_type") "INFO").
  unfold getattr_level, add_message, vlift, vret, vfail, set_instance.
  assert (Hmember :
    existsb (String.eqb message_type) ["INFO"; "WARNING"; "ERROR"; "all"] =
      (message_type =? "all") || (message_type =? "INFO")
      || (message_type =? "WARNING") || (message_type =? "ERROR")).
  { simpl. destruct (message_type =? "all"), (message_type =? "INFO"),
      (message_type =? "WARNING"), (message_type =? "ERROR"); reflexivity. }
  rewrite Hmember.
  destruct (message_type =? "all") eqn:Hall.
  { simpl. rewrite <- !app_assoc. reflexivity. }
  destruct (message_type =? "INFO") eqn:Hinfo.
  { reflexivity. }
  destruct (message_type =? "WARNING") eqn:Hwarning.
  { reflexivity. }
  destruct (message_type =? "ERROR") eqn:Herror.
  { reflexivity. }
  reflexivity.
Qed.

Lemma messages_debug_post_queues_witness :
  MessagesDebugView_post (app := sample_app) (pres := sample_presentation)
    all_messages_request sample_site =
    (Done (Plain (Redirect "/" [])),
     mkSite
       (set_permission_checks
          [mkCheck (PDict [("id", PStr "root")]) "view-instance" [] false
             (PBool true)]
          sample_ds)
       [("hello", PInt 1); ("hello", PInt 2); ("hello", PInt 3)]
       []).
Proof.
  apply (@messages_debug_post_queues sample_app sample_presentation
           all_messages_request sample_site).
  reflexivity.
Defined.

(** ** All the views *)

(** A view that renders last, served on a site. *)
Lemma page_renders_last {app : App} {B : Type} (f : Datasette -> B)
    (request : Request) (m : M Response) (s : Site) :
  renders_last f request m ->
  f (instance (snd (page m s))) = f (instance s) \/
  exists templates context s1,
    f (instance s1) = f (instance s) /\
    page m s = page (render templates request context) s1.
Proof.
  intros Hm.
  destruct (Hm (instance s)) as [Hkeep | [templates [context [ds1 [Hf Hrun]]]]].
  - left. rewrite page_run. exact Hkeep.
  - right. exists templates, context, (set_instance ds1 s).
    split; [ exact Hf | ].
    rewrite !page_run. simpl. rewrite Hrun. reflexivity.
Qed.

(** X17: seven entry points make no permission check of their own: the
    root token view, both methods of logout, the allow debug tool, both
    methods of token creation (which has checks of its own kind) and the
    API explorer either leave the log of permission checks as it was, or
    hand a page to the renderer on a site whose log is as it was; the
    only checks logged during such a request are those of the
    renderer. *)
Theorem views_without_permission_check {rt : Runtime} {app : App}
    {pres : Presentation} (route : Route) (request : Request) (s : Site) :
  In route [auth_token; logout_get; logout_post; allow_debug;
            create_token_get; create_token_post; api_explorer] ->
  _permission_checks (instance (snd (dispatch route request s))) =
    _permission_checks (instance s) \/
  exists templates context s1,
    _permission_checks (instance s1) = _permission_checks (instance s) /\
    dispatch route request s = page (render templates request context) s1.
Proof.
  intros Hroute. simpl in Hroute.
  destruct Hroute as [H | [H | [H | [H | [H | [H | [H | []]]]]]]]; subst route;
    simpl.
  - left. rewrite page_run. apply AuthTokenView_get_keeps_checks.
  - apply page_renders_last. apply LogoutView_get_renders_last.
  - left. reflexivity.
  - apply page_renders_last. apply AllowDebugView_get_renders_last.
  - apply page_renders_last. apply CreateTokenView_get_renders_last.
  - apply page_renders_last. apply CreateTokenView_post_renders_last.
  - apply page_renders_last. apply ApiExplorerView_get_renders_last.
Qed.

Lemma views_without_permission_check_witness :
  _permission_checks
    (instance (snd (dispatch (rt := sample_runtime) (app := sample_app)
                      (pres := sample_presentation)
                      create_token_post (expiry_request "hours" "2") sample_site))) =
    _permission_checks (instance sample_site) \/
  exists templates context s1,
    _permission_checks (instance s1) = _permission_checks (instance sample_site) /\
    dispatch (rt := sample_runtime) (app := sample_app)
      (pres := sample_presentation)
      create_token_post (expiry_request "hours" "2") sample_site =
      page (render (app := sample_app) templates (expiry_request "hours" "2")
              context) s1.
Proof.
  apply (@views_without_permission_check sample_runtime sample_app
           sample_presentation create_token_post (expiry_request "hours" "2")
           sample_site).
  simpl. tauto.
Defined.

(** X18: the other entry points check [view-instance] first: for an
    actor who is refused it, the pattern portfolio, both methods of the
    permissions debug tool, both methods of the messages debug tool and
    a JSON data view on a route with a format variable all fail with
    [Forbidden], and do nothing else: the check is logged, no message is
    queued, no data callback is called. *)
Theorem gated_views_refuse {rt : Runtime} {app : App} {pres : Presentation}
    (route : Route) (request : Request) (s : Site) :
  let a := actor_value (actor request) in
  let gate := check_record a "view-instance" [] PNone in
  let checked :=
    set_permission_checks
      (ring_append maxlen (_permission_checks (instance s)) gate) (instance s) in
  In route [patterns; permissions_debug_get; permissions_debug_post;
            messages_debug_get; messages_debug_post] \/
  (exists self url_vars as_format,
      route = json_data self url_vars /\
      dict_get url_vars "format" = Some as_format) ->
  truthy (resolve "view-instance" (pc_result gate)) = false ->
  exists message,
    dispatch route request s =
      (Failed (PyExn (Forbidden message)), set_instance checked s).
Proof.
  cbv zeta. intros Hroute Hgate. exists "view-instance".
  destruct Hroute as [Hroute | [self [url_vars [as_format [Hroute Hformat]]]]].
  - simpl in Hroute.
    destruct Hroute as [H | [H | [H | [H | [H | []]]]]]; subst route;
      simpl; try rewrite page_run;
      unfold PatternPortfolioView_get, PermissionsDebugView_get,
        PermissionsDebugView_post, MessagesDebugView_get,
        MessagesDebugView_post, bind, vbind, run;
      rewrite ensure_permission_cases, Hgate; reflexivity.
  - subst route. simpl.
    unfold JsonDataView_get, vbind, vlift, dict_item, run, vret.
    rewrite Hformat. cbv beta iota.
    rewrite ensure_permission_cases, Hgate. reflexivity.
Qed.

Lemma gated_views_refuse_witness :
  exists message,
    dispatch (rt := sample_runtime) (app := closed_app) (pres := sample_presentation)
      messages_debug_post anonymous_request sample_site =
      (Failed (PyExn (Forbidden message)),
       mkSite
         (set_permission_checks
            [mkCheck PNone "view-instance" [] true PNone] sample_ds)
         [] []).
Proof.
  apply (@gated_views_refuse sample_runtime closed_app sample_presentation
           messages_debug_post anonymous_request sample_site).
  - left. simpl. tauto.
  - reflexivity.
Defined.

(** X19: no view sets a root token: whatever requests are served, to
    whichever views and in whatever order, the root token afterwards is
    the one the site began with, or [None]. *)
Theorem root_token_is_only_cleared {rt : Runtime} {app : App} {pres : Presentation}
    (calls : list (Q * Route * Request)) (s : Site) :
  _root_token (instance (snd (serve_all calls s))) = _root_token (instance s) \/
  _root_token (instance (snd (serve_all calls s))) = None.
Proof.
  revert s. induction calls as [ | [[now route] request] rest IH]; intros s.
  - left. reflexivity.
  - simpl.
    pose proof (dispatch_root_token route request (at_time now s)) as Hstep.
    destruct (dispatch route request (at_time now s)) as [o s1].
    specialize (IH s1).
    destruct (serve_all rest s1) as [served s2].
    simpl in *.
    destruct IH as [IH | IH]; [ | right; exact IH ].
    rewrite IH. destruct Hstep as [Hstep | [_ Hstep]];
      [ left; exact Hstep | right; exact Hstep ].
Qed.

(** X20: once the root token is [None], every later request to the root
    token view fails with [Forbidden], whatever requests the site serves
    in between, to all thirteen entry points of the module. *)
Theorem consumed_for_all_views {rt : Runtime} {app : App} {pres : Presentation}
    (calls : list (Q * Route * Request)) (s : Site)
    (request : Request) (o : result Reply) :
  _root_token (instance s) = None ->
  In (auth_token, request, o) (fst (serve_all calls s)) ->
  o = Failed (PyExn (Forbidden "Root token has already been used")).
Proof.
  revert s. induction calls as [ | [[now route] again] rest IH]; intros s Hnone Hin.
  - contradiction.
  - simpl in Hin.
    assert (Hset : _root_token (instance (at_time now s)) = None) by exact Hnone.
    pose proof (dispatch_root_token route again (at_time now s)) as Hstep.
    destruct (dispatch route again (at_time now s)) as [o1 s1] eqn:Hrun.
    destruct (serve_all rest s1) as [served s2] eqn:Hrest.
    simpl in Hin, Hstep.
    assert (Hkeep : _root_token (instance s1) = None).
    { destruct Hstep as [Hstep | [_ Hstep]];
        [ rewrite Hstep; exact Hset | exact Hstep ]. }
    destruct Hin as [Hhead | Htail].
    + inversion Hhead; subst route again o1.
      simpl in Hrun. rewrite page_run in Hrun.
      rewrite (AuthTokenView_get_consumed request _ Hset) in Hrun.
      inversion Hrun. reflexivity.
    + apply (IH s1 Hkeep). rewrite Hrest. exact Htail.
Qed.

Lemma consumed_for_all_views_witness :
  snd (nth 1 (fst (serve_all (rt := sample_runtime) (app := sample_app)
                     (pres := sample_presentation)
                     [(1%Q, logout_post, sample_request);
                      (2%Q, auth_token, sample_request)]
                     (mkSite consumed_ds [] [])))
         (api_explorer, sample_request, Failed AssertionError)) =
    Failed (PyExn (Forbidden "Root token has already been used")).
Proof.
  apply (@consumed_for_all_views sample_runtime sample_app sample_presentation
           [(1%Q, logout_post, sample_request); (2%Q, auth_token, sample_request)]
           (mkSite consumed_ds [] []) sample_request).
  - reflexivity.
  - simpl. right. left. reflexivity.
Defined.
